(** * OculusRoomTiny with the ThreeSpace tracker: pose fusion of [OnIdle]

    A shallow embedding of [Win32_OculusRoomTiny.cpp] / [.h]: the camera
    pose kept by [OculusRoomTinyApp], the input handlers [OnKey],
    [OnMouseMove], [OnGamepad], and the per-frame function [OnIdle] with the
    ThreeSpace quaternion decomposition, the yaw blend, the motion
    integration and the minimal head model.

    Number model.  The C++ [float] and [double] scalars are read as real
    numbers: arithmetic is exact, there is no rounding, overflow or NaN.
    Decimal literals of the source ([3.1415f], [3.14159265358979f], ...)
    are the decimal numbers written, so the source's approximations of pi
    stay distinct from [PI]; literals with a whole value ([2.0f], [1.0],
    [360.0f]) are written [2], [1], [360].  Integer data ([UByte] key
    masks, [int] mouse deltas, [short] stick values, virtual key codes)
    are in [Z].

    Effects.  Calls that leave the program (the log, the guarded math
    calls [asin] and [atan2], the render passes) are recorded in a trace
    carried by a small writer monad. *)

From Stdlib Require Import Reals Machin Lra ZArith Lia List Ascii String Bool.
Import ListNotations.

Local Open Scope R_scope.

(* ------------------------------------------------------------------ *)
(** * LibOVR math types *)

(** Modelled from the spec: [Vector3f] of LibOVR ([OVR_Math.h]) is not
    part of the sources.  A 3-vector with componentwise sum, difference and
    scaling; [Length] is the Euclidean norm and [Normalize] divides by it
    (spec 4.4: "normalize it to avoid faster diagonal movement"). *)
Module Vector3f.

Record t : Type := mk { x : R; y : R; z : R }.

Definition zero : t := mk 0 0 0.

Definition add (a b : t) : t := mk (x a + x b) (y a + y b) (z a + z b).
Definition sub (a b : t) : t := mk (x a - x b) (y a - y b) (z a - z b).
Definition neg (a : t) : t := mk (- x a) (- y a) (- z a).
Definition scale (a : t) (s : R) : t := mk (x a * s) (y a * s) (z a * s).

Definition LengthSq (a : t) : R := x a * x a + y a * y a + z a * z a.
Definition Length (a : t) : R := sqrt (LengthSq a).

(** [*this /= l] multiplies every component by the reciprocal. *)
Definition div (a : t) (s : R) : t := scale a (1 / s).
Definition Normalize (a : t) : t := div a (Length a).

End Vector3f.

Abbreviation Vector3f := Vector3f.t.

(** Modelled from the spec: [Matrix4f] of LibOVR is not part of the
    sources.  A 4x4 matrix indexed by row and column; [RotationX],
    [RotationY], [RotationZ] are the right-handed rotations about the
    right, up and forward axes (glossary: "rotation around the up/right/
    forward axes"), [mul] the matrix product and [Transform] the action on
    a point. *)
Module Matrix4f.

Definition t : Type := nat -> nat -> R.

Definition RotationX (angle : R) : t := fun i j =>
  match i, j with
  | 0%nat, 0%nat => 1
  | 1%nat, 1%nat => cos angle | 1%nat, 2%nat => - sin angle
  | 2%nat, 1%nat => sin angle | 2%nat, 2%nat => cos angle
  | 3%nat, 3%nat => 1
  | _, _ => 0
  end.

Definition RotationY (angle : R) : t := fun i j =>
  match i, j with
  | 0%nat, 0%nat => cos angle | 0%nat, 2%nat => sin angle
  | 1%nat, 1%nat => 1
  | 2%nat, 0%nat => - sin angle | 2%nat, 2%nat => cos angle
  | 3%nat, 3%nat => 1
  | _, _ => 0
  end.

Definition RotationZ (angle : R) : t := fun i j =>
  match i, j with
  | 0%nat, 0%nat => cos angle | 0%nat, 1%nat => - sin angle
  | 1%nat, 0%nat => sin angle | 1%nat, 1%nat => cos angle
  | 2%nat, 2%nat => 1
  | 3%nat, 3%nat => 1
  | _, _ => 0
  end.

(** [M[i][j]] with literal indices. *)
Local Notation "m [ i , j ]" := (m i%nat j%nat)
  (at level 1, i at level 9, j at level 9, format "m [ i , j ]").

Definition mul (a b : t) : t := fun i j =>
  a[i,0] * b[0,j] + a[i,1] * b[1,j] + a[i,2] * b[2,j] + a[i,3] * b[3,j].

Definition Transform (m : t) (v : Vector3f) : Vector3f :=
  Vector3f.mk
    (m[0,0] * Vector3f.x v + m[0,1] * Vector3f.y v + m[0,2] * Vector3f.z v + m[0,3])
    (m[1,0] * Vector3f.x v + m[1,1] * Vector3f.y v + m[1,2] * Vector3f.z v + m[1,3])
    (m[2,0] * Vector3f.x v + m[2,1] * Vector3f.y v + m[2,2] * Vector3f.z v + m[2,3]).

End Matrix4f.

Abbreviation Matrix4f := Matrix4f.t.

(** The view matrix is only handed to the renderer: [LookAtRH] keeps its
    three arguments; [ViewIdentity] is the default-constructed matrix. *)
Inductive ViewMatrix : Type :=
| ViewIdentity
| LookAtRH (eye at_ up : Vector3f).

(* ------------------------------------------------------------------ *)
(** * Constants of [Win32_OculusRoomTiny.h] *)

Definition UpVector : Vector3f := Vector3f.mk 0 1 0.
Definition ForwardVector : Vector3f := Vector3f.mk 0 0 (-1).
Definition RightVector : Vector3f := Vector3f.mk 1 0 0.

Definition YawInitial : R := 3.141592.
Definition Sensitivity : R := 1.
Definition MoveSpeed : R := 3.

(* ------------------------------------------------------------------ *)
(** * Effects *)

Inductive StereoEye : Type := StereoEye_Center | StereoEye_Left | StereoEye_Right.
Inductive StereoMode : Type := Stereo_None | Stereo_LeftRight_Multipass.
Inductive PostProcessType : Type := PostProcess_None | PostProcess_Distortion.

Inductive Effect : Type :=
| LogText (msg : string)
| CallAsin (arg : R)
| CallAtan2 (num den : R)
| RenderScene (pp : PostProcessType) (eye : StereoEye) (view : ViewMatrix)
| Present
| ForceFlushGPU.

(** Writer monad over the effect trace. *)
Definition Eff (A : Type) : Type := (A * list Effect)%type.

Definition ret {A} (a : A) : Eff A := (a, []).
Definition bind {A B} (m : Eff A) (k : A -> Eff B) : Eff B :=
  let (a, t1) := m in
  let (b, t2) := k a in
  (b, t1 ++ t2).
Definition tell (e : Effect) : Eff unit := (tt, [e]).

Notation "x <- m ;; k" := (bind m (fun x => k))
  (at level 61, m at next level, right associativity).
Notation "m ;;; k" := (bind m (fun _ => k))
  (at level 61, right associativity).

(* ------------------------------------------------------------------ *)
(** * The C math library *)

(** [atan2] of the C library: the angle of the point [(den, num)], in
    [(-PI, PI]].  [asin] is the arcsine of the standard library of reals.
    Both calls are recorded in the trace with their arguments. *)
Definition atan2 (num den : R) : R :=
  if Rlt_dec 0 den then atan (num / den)
  else if Rlt_dec den 0 then
    (if Rle_dec 0 num then atan (num / den) + PI else atan (num / den) - PI)
  else if Rlt_dec 0 num then PI / 2
  else if Rlt_dec num 0 then - (PI / 2)
  else 0.

Definition c_atan2 (num den : R) : Eff R :=
  tell (CallAtan2 num den) ;;; ret (atan2 num den).

Definition c_asin (arg : R) : Eff R :=
  tell (CallAsin arg) ;;; ret (asin arg).

(* ------------------------------------------------------------------ *)
(** * ThreeSpace stream packet and its decomposition *)

(** [tss_stream_packet]: [float quat[4]], in x, y, z, w order. *)
Record tss_stream_packet : Type := mkPacket {
  quat0 : R; quat1 : R; quat2 : R; quat3 : R
}.

Definition PI_F : R := 3.14159265358979.

(** [s = 2.0f * (w * y - x * z)] of [OnIdle]. *)
Definition tss_s (p : tss_stream_packet) : R :=
  let x := quat0 p in let y := quat1 p in
  let z := quat2 p in let w := quat3 p in
  2 * (w * y - x * z).

(** [rotator[0..2]] as [OnIdle] fills it: yaw, pitch, roll. *)
Definition tss_rotator (p : tss_stream_packet) : Eff (R * R * R) :=
  let x := quat0 p in let y := quat1 p in
  let z := quat2 p in let w := quat3 p in
  let s := 2 * (w * y - x * z) in
  if Rlt_dec s 1 then
    if Rlt_dec (-1) s then
      r0 <- c_atan2 (2 * (x * y + w * z)) (1 - 2 * (y * y + z * z)) ;;
      r1 <- c_asin s ;;
      r2 <- c_atan2 (2 * (y * z + w * x)) (1 - 2 * (x * x + y * y)) ;;
      ret (r0, r1, r2)
    else
      r2 <- c_atan2 (2 * (x * y - w * z)) (1 - 2 * (x * x + z * z)) ;;
      ret (0, - PI_F / 2, - r2)
  else
    r2 <- c_atan2 (2 * (x * y - w * z)) (1 - 2 * (x * x + z * z)) ;;
    ret (0, PI_F / 2, r2).

(* ------------------------------------------------------------------ *)
(** * Application state *)

(** The members of [OculusRoomTinyApp] that the handlers and [OnIdle] read
    or write, together with the ThreeSpace globals.  Device handles are
    kept as the booleans the code tests. *)
Record OculusRoomTinyApp : Type := mkApp {
  pSensor : bool;  (* [Ptr<SensorDevice> pSensor] is non-null *)
  tss_isStreaming : bool;  (* global [tss_isStreaming] *)
  tss_packet : tss_stream_packet;  (* global [tss_packet] *)
  LastUpdate : R;
  EyePos : Vector3f;
  EyeYaw : R;
  EyePitch : R;
  EyeRoll : R;
  LastSensorYaw : R;
  MoveForward : Z;  (* [UByte] *)
  MoveBack : Z;
  MoveLeft : Z;
  MoveRight : Z;
  GamepadMove : Vector3f;
  GamepadRotate : Vector3f;
  View : ViewMatrix;
  SConfig_StereoMode : StereoMode;  (* [SConfig.GetStereoMode()] *)
  SConfig_IPD : R;  (* [SConfig.GetIPD()] *)
  PostProcess : PostProcessType;
  ShiftDown : bool;
  ControlDown : bool;
  Quit : bool
}.

(** Field updates. *)
Definition set_pSensor (v : bool) (a : OculusRoomTinyApp) : OculusRoomTinyApp :=
  mkApp v (tss_isStreaming a) (tss_packet a) (LastUpdate a) (EyePos a)
    (EyeYaw a) (EyePitch a) (EyeRoll a) (LastSensorYaw a) (MoveForward a)
    (MoveBack a) (MoveLeft a) (MoveRight a) (GamepadMove a)
    (GamepadRotate a) (View a) (SConfig_StereoMode a) (SConfig_IPD a)
    (PostProcess a) (ShiftDown a) (ControlDown a) (Quit a).
Definition set_tss_isStreaming (v : bool) (a : OculusRoomTinyApp) : OculusRoomTinyApp :=
  mkApp (pSensor a) v (tss_packet a) (LastUpdate a) (EyePos a) (EyeYaw a)
    (EyePitch a) (EyeRoll a) (LastSensorYaw a) (MoveForward a) (MoveBack a)
    (MoveLeft a) (MoveRight a) (GamepadMove a) (GamepadRotate a) (View a)
    (SConfig_StereoMode a) (SConfig_IPD a) (PostProcess a) (ShiftDown a)
    (ControlDown a) (Quit a).
Definition set_tss_packet (v : tss_stream_packet) (a : OculusRoomTinyApp) : OculusRoomTinyApp :=
  mkApp (pSensor a) (tss_isStreaming a) v (LastUpdate a) (EyePos a)
    (EyeYaw a) (EyePitch a) (EyeRoll a) (LastSensorYaw a) (MoveForward a)
    (MoveBack a) (MoveLeft a) (MoveRight a) (GamepadMove a)
    (GamepadRotate a) (View a) (SConfig_StereoMode a) (SConfig_IPD a)
    (PostProcess a) (ShiftDown a) (ControlDown a) (Quit a).
Definition set_LastUpdate (v : R) (a : OculusRoomTinyApp) : OculusRoomTinyApp :=
  mkApp (pSensor a) (tss_isStreaming a) (tss_packet a) v (EyePos a)
    (EyeYaw a) (EyePitch a) (EyeRoll a) (LastSensorYaw a) (MoveForward a)
    (MoveBack a) (MoveLeft a) (MoveRight a) (GamepadMove a)
    (GamepadRotate a) (View a) (SConfig_StereoMode a) (SConfig_IPD a)
    (PostProcess a) (ShiftDown a) (ControlDown a) (Quit a).
Definition set_EyePos (v : Vector3f) (a : OculusRoomTinyApp) : OculusRoomTinyApp :=
  mkApp (pSensor a) (tss_isStreaming a) (tss_packet a) (LastUpdate a) v
    (EyeYaw a) (EyePitch a) (EyeRoll a) (LastSensorYaw a) (MoveForward a)
    (MoveBack a) (MoveLeft a) (MoveRight a) (GamepadMove a)
    (GamepadRotate a) (View a) (SConfig_StereoMode a) (SConfig_IPD a)
    (PostProcess a) (ShiftDown a) (ControlDown a) (Quit a).
Definition set_EyeYaw (v : R) (a : OculusRoomTinyApp) : OculusRoomTinyApp :=
  mkApp (pSensor a) (tss_isStreaming a) (tss_packet a) (LastUpdate a)
    (EyePos a) v (EyePitch a) (EyeRoll a) (LastSensorYaw a) (MoveForward a)
    (MoveBack a) (MoveLeft a) (MoveRight a) (GamepadMove a)
    (GamepadRotate a) (View a) (SConfig_StereoMode a) (SConfig_IPD a)
    (PostProcess a) (ShiftDown a) (ControlDown a) (Quit a).
Definition set_EyePitch (v : R) (a : OculusRoomTinyApp) : OculusRoomTinyApp :=
  mkApp (pSensor a) (tss_isStreaming a) (tss_packet a) (LastUpdate a)
    (EyePos a) (EyeYaw a) v (EyeRoll a) (LastSensorYaw a) (MoveForward a)
    (MoveBack a) (MoveLeft a) (MoveRight a) (GamepadMove a)
    (GamepadRotate a) (View a) (SConfig_StereoMode a) (SConfig_IPD a)
    (PostProcess a) (ShiftDown a) (ControlDown a) (Quit a).
Definition set_EyeRoll (v : R) (a : OculusRoomTinyApp) : OculusRoomTinyApp :=
  mkApp (pSensor a) (tss_isStreaming a) (tss_packet a) (LastUpdate a)
    (EyePos a) (EyeYaw a) (EyePitch a) v (LastSensorYaw a) (MoveForward a)
    (MoveBack a) (MoveLeft a) (MoveRight a) (GamepadMove a)
    (GamepadRotate a) (View a) (SConfig_StereoMode a) (SConfig_IPD a)
    (PostProcess a) (ShiftDown a) (ControlDown a) (Quit a).
Definition set_LastSensorYaw (v : R) (a : OculusRoomTinyApp) : OculusRoomTinyApp :=
  mkApp (pSensor a) (tss_isStreaming a) (tss_packet a) (LastUpdate a)
    (EyePos a) (EyeYaw a) (EyePitch a) (EyeRoll a) v (MoveForward a)
    (MoveBack a) (MoveLeft a) (MoveRight a) (GamepadMove a)
    (GamepadRotate a) (View a) (SConfig_StereoMode a) (SConfig_IPD a)
    (PostProcess a) (ShiftDown a) (ControlDown a) (Quit a).
Definition set_MoveForward (v : Z) (a : OculusRoomTinyApp) : OculusRoomTinyApp :=
  mkApp (pSensor a) (tss_isStreaming a) (tss_packet a) (LastUpdate a)
    (EyePos a) (EyeYaw a) (EyePitch a) (EyeRoll a) (LastSensorYaw a) v
    (MoveBack a) (MoveLeft a) (MoveRight a) (GamepadMove a)
    (GamepadRotate a) (View a) (SConfig_StereoMode a) (SConfig_IPD a)
    (PostProcess a) (ShiftDown a) (ControlDown a) (Quit a).
Definition set_MoveBack (v : Z) (a : OculusRoomTinyApp) : OculusRoomTinyApp :=
  mkApp (pSensor a) (tss_isStreaming a) (tss_packet a) (LastUpdate a)
    (EyePos a) (EyeYaw a) (EyePitch a) (EyeRoll a) (LastSensorYaw a)
    (MoveForward a) v (MoveLeft a) (MoveRight a) (GamepadMove a)
    (GamepadRotate a) (View a) (SConfig_StereoMode a) (SConfig_IPD a)
    (PostProcess a) (ShiftDown a) (ControlDown a) (Quit a).
Definition set_MoveLeft (v : Z) (a : OculusRoomTinyApp) : OculusRoomTinyApp :=
  mkApp (pSensor a) (tss_isStreaming a) (tss_packet a) (LastUpdate a)
    (EyePos a) (EyeYaw a) (EyePitch a) (EyeRoll a) (LastSensorYaw a)
    (MoveForward a) (MoveBack a) v (MoveRight a) (GamepadMove a)
    (GamepadRotate a) (View a) (SConfig_StereoMode a) (SConfig_IPD a)
    (PostProcess a) (ShiftDown a) (ControlDown a) (Quit a).
Definition set_MoveRight (v : Z) (a : OculusRoomTinyApp) : OculusRoomTinyApp :=
  mkApp (pSensor a) (tss_isStreaming a) (tss_packet a) (LastUpdate a)
    (EyePos a) (EyeYaw a) (EyePitch a) (EyeRoll a) (LastSensorYaw a)
    (MoveForward a) (MoveBack a) (MoveLeft a) v (GamepadMove a)
    (GamepadRotate a) (View a) (SConfig_StereoMode a) (SConfig_IPD a)
    (PostProcess a) (ShiftDown a) (ControlDown a) (Quit a).
Definition set_GamepadMove (v : Vector3f) (a : OculusRoomTinyApp) : OculusRoomTinyApp :=
  mkApp (pSensor a) (tss_isStreaming a) (tss_packet a) (LastUpdate a)
    (EyePos a) (EyeYaw a) (EyePitch a) (EyeRoll a) (LastSensorYaw a)
    (MoveForward a) (MoveBack a) (MoveLeft a) (MoveRight a) v
    (GamepadRotate a) (View a) (SConfig_StereoMode a) (SConfig_IPD a)
    (PostProcess a) (ShiftDown a) (ControlDown a) (Quit a).
Definition set_GamepadRotate (v : Vector3f) (a : OculusRoomTinyApp) : OculusRoomTinyApp :=
  mkApp (pSensor a) (tss_isStreaming a) (tss_packet a) (LastUpdate a)
    (EyePos a) (EyeYaw a) (EyePitch a) (EyeRoll a) (LastSensorYaw a)
    (MoveForward a) (MoveBack a) (MoveLeft a) (MoveRight a) (GamepadMove a)
    v (View a) (SConfig_StereoMode a) (SConfig_IPD a) (PostProcess a)
    (ShiftDown a) (ControlDown a) (Quit a).
Definition set_View (v : ViewMatrix) (a : OculusRoomTinyApp) : OculusRoomTinyApp :=
  mkApp (pSensor a) (tss_isStreaming a) (tss_packet a) (LastUpdate a)
    (EyePos a) (EyeYaw a) (EyePitch a) (EyeRoll a) (LastSensorYaw a)
    (MoveForward a) (MoveBack a) (MoveLeft a) (MoveRight a) (GamepadMove a)
    (GamepadRotate a) v (SConfig_StereoMode a) (SConfig_IPD a)
    (PostProcess a) (ShiftDown a) (ControlDown a) (Quit a).
Definition set_SConfig_StereoMode (v : StereoMode) (a : OculusRoomTinyApp) : OculusRoomTinyApp :=
  mkApp (pSensor a) (tss_isStreaming a) (tss_packet a) (LastUpdate a)
    (EyePos a) (EyeYaw a) (EyePitch a) (EyeRoll a) (LastSensorYaw a)
    (MoveForward a) (MoveBack a) (MoveLeft a) (MoveRight a) (GamepadMove a)
    (GamepadRotate a) (View a) v (SConfig_IPD a) (PostProcess a)
    (ShiftDown a) (ControlDown a) (Quit a).
Definition set_SConfig_IPD (v : R) (a : OculusRoomTinyApp) : OculusRoomTinyApp :=
  mkApp (pSensor a) (tss_isStreaming a) (tss_packet a) (LastUpdate a)
    (EyePos a) (EyeYaw a) (EyePitch a) (EyeRoll a) (LastSensorYaw a)
    (MoveForward a) (MoveBack a) (MoveLeft a) (MoveRight a) (GamepadMove a)
    (GamepadRotate a) (View a) (SConfig_StereoMode a) v (PostProcess a)
    (ShiftDown a) (ControlDown a) (Quit a).
Definition set_PostProcess (v : PostProcessType) (a : OculusRoomTinyApp) : OculusRoomTinyApp :=
  mkApp (pSensor a) (tss_isStreaming a) (tss_packet a) (LastUpdate a)
    (EyePos a) (EyeYaw a) (EyePitch a) (EyeRoll a) (LastSensorYaw a)
    (MoveForward a) (MoveBack a) (MoveLeft a) (MoveRight a) (GamepadMove a)
    (GamepadRotate a) (View a) (SConfig_StereoMode a) (SConfig_IPD a) v
    (ShiftDown a) (ControlDown a) (Quit a).
Definition set_ShiftDown (v : bool) (a : OculusRoomTinyApp) : OculusRoomTinyApp :=
  mkApp (pSensor a) (tss_isStreaming a) (tss_packet a) (LastUpdate a)
    (EyePos a) (EyeYaw a) (EyePitch a) (EyeRoll a) (LastSensorYaw a)
    (MoveForward a) (MoveBack a) (MoveLeft a) (MoveRight a) (GamepadMove a)
    (GamepadRotate a) (View a) (SConfig_StereoMode a) (SConfig_IPD a)
    (PostProcess a) v (ControlDown a) (Quit a).
Definition set_ControlDown (v : bool) (a : OculusRoomTinyApp) : OculusRoomTinyApp :=
  mkApp (pSensor a) (tss_isStreaming a) (tss_packet a) (LastUpdate a)
    (EyePos a) (EyeYaw a) (EyePitch a) (EyeRoll a) (LastSensorYaw a)
    (MoveForward a) (MoveBack a) (MoveLeft a) (MoveRight a) (GamepadMove a)
    (GamepadRotate a) (View a) (SConfig_StereoMode a) (SConfig_IPD a)
    (PostProcess a) (ShiftDown a) v (Quit a).
Definition set_Quit (v : bool) (a : OculusRoomTinyApp) : OculusRoomTinyApp :=
  mkApp (pSensor a) (tss_isStreaming a) (tss_packet a) (LastUpdate a)
    (EyePos a) (EyeYaw a) (EyePitch a) (EyeRoll a) (LastSensorYaw a)
    (MoveForward a) (MoveBack a) (MoveLeft a) (MoveRight a) (GamepadMove a)
    (GamepadRotate a) (View a) (SConfig_StereoMode a) (SConfig_IPD a)
    (PostProcess a) (ShiftDown a) (ControlDown a) v.

(* ------------------------------------------------------------------ *)
(** * Construction and startup *)

(** The constructor's member initialisers, with the zero-initialised
    ThreeSpace globals.  [SConfig()] is LibOVR's default configuration:
    its interpupillary distance is the parameter [ipd] ("default IPD is
    64mm" in [OnKey]); its stereo mode is set again by [OnStartup]. *)
Definition construct (ipd : R) : OculusRoomTinyApp :=
  {| pSensor := false;
     tss_isStreaming := false;
     tss_packet := mkPacket 0 0 0 0;
     LastUpdate := 0;
     EyePos := Vector3f.mk 0 1.6 (-5);
     EyeYaw := YawInitial; EyePitch := 0; EyeRoll := 0;
     LastSensorYaw := 0;
     MoveForward := 0; MoveBack := 0; MoveLeft := 0; MoveRight := 0;
     GamepadMove := Vector3f.zero;
     GamepadRotate := Vector3f.zero;
     View := ViewIdentity;
     SConfig_StereoMode := Stereo_LeftRight_Multipass;
     SConfig_IPD := ipd;
     PostProcess := PostProcess_Distortion;
     ShiftDown := false;
     ControlDown := false;
     Quit := false |}.

(** What [OnStartup] leaves in the state when it returns 0: whether the
    ThreeSpace stream started ([streaming]), whether an Oculus sensor was
    found ([sensor]), the stereo mode, and the time of the first frame. *)
Definition OnStartup (streaming sensor : bool) (now : R)
    (a : OculusRoomTinyApp) : OculusRoomTinyApp :=
  mkApp sensor streaming (tss_packet a) now
    (EyePos a) (EyeYaw a) (EyePitch a) (EyeRoll a) (LastSensorYaw a)
    (MoveForward a) (MoveBack a) (MoveLeft a) (MoveRight a) (GamepadMove a)
    (GamepadRotate a) (View a) Stereo_LeftRight_Multipass (SConfig_IPD a)
    (PostProcess a) (ShiftDown a) (ControlDown a) (Quit a).

(* ------------------------------------------------------------------ *)
(** * Input handlers *)

Definition OnGamepad (padLx padLy padRx padRy : R)
    (a : OculusRoomTinyApp) : OculusRoomTinyApp :=
  let a := set_GamepadMove
             (Vector3f.mk (padLx * padLx * (if Rlt_dec 0 padLx then 1 else -1))
                          0
                          (padLy * padLy * (if Rlt_dec 0 padLy then -1 else 1))) a in
  set_GamepadRotate (Vector3f.mk (2 * padRx) (-2 * padRy) 0) a.

(** [maxPitch = ((3.1415f/2)*0.98f)], the same constant in [OnMouseMove]
    and in [OnIdle]. *)
Definition maxPitch : R := (3.1415 / 2) * 0.98.

(** The two clamping statements that follow every manual pitch update. *)
Definition clampPitch (a : OculusRoomTinyApp) : OculusRoomTinyApp :=
  let a := if Rlt_dec maxPitch (EyePitch a) then set_EyePitch maxPitch a else a in
  if Rlt_dec (EyePitch a) (- maxPitch) then set_EyePitch (- maxPitch) a else a.

Definition OnMouseMove (x y : Z) (a : OculusRoomTinyApp) : OculusRoomTinyApp :=
  let dx := x in
  let dy := y in
  let a := set_EyeYaw (EyeYaw a - (Sensitivity * IZR dx) / 360) a in
  if negb (pSensor a) then
    let a := set_EyePitch (EyePitch a - (Sensitivity * IZR dy) / 360) a in
    clampPitch a
  else a.

(** Virtual key codes of the Windows headers. *)
Definition VK_ESCAPE : Z := 0x1B.
Definition VK_UP : Z := 0x26.
Definition VK_DOWN : Z := 0x28.
Definition VK_F1 : Z := 0x70.
Definition VK_F2 : Z := 0x71.
Definition VK_F3 : Z := 0x72.
Definition VK_OEM_PLUS : Z := 0xBB.
Definition VK_INSERT : Z := 0x2D.
Definition VK_OEM_MINUS : Z := 0xBD.
Definition VK_DELETE : Z := 0x2E.
Definition VK_SHIFT : Z := 0x10.
Definition VK_CONTROL : Z := 0x11.

(** Character constants ['Q'], ['W'], ... *)
Definition chr (c : Ascii.ascii) : Z := Z.of_N (Ascii.N_of_ascii c).

(** Conversion of an [int] result back to [UByte]. *)
Definition to_UByte (v : Z) : Z := (v mod 256)%Z.

(** [down ? (m | bit) : (m & ~bit)] stored into a [UByte] member. *)
Definition key_bit (m bit : Z) (down : bool) : Z :=
  to_UByte (if down then Z.lor m bit else Z.land m (Z.lnot bit)).

(** [OnKey].  The cases ['R'] ([SFusion.Reset()]) and ['P'] (the renderer's
    post-process shader) act on objects outside this state. *)
Definition OnKey (vk : Z) (down : bool) (a : OculusRoomTinyApp) : OculusRoomTinyApp :=
  if (vk =? chr "Q"%char)%Z then
    if down && ControlDown a then set_Quit true a else a
  else if (vk =? VK_ESCAPE)%Z then
    if negb down then set_Quit true a else a
  else if (vk =? chr "W"%char)%Z then set_MoveForward (key_bit (MoveForward a) 1 down) a
  else if (vk =? chr "S"%char)%Z then set_MoveBack (key_bit (MoveBack a) 1 down) a
  else if (vk =? chr "A"%char)%Z then set_MoveLeft (key_bit (MoveLeft a) 1 down) a
  else if (vk =? chr "D"%char)%Z then set_MoveRight (key_bit (MoveRight a) 1 down) a
  else if (vk =? VK_UP)%Z then set_MoveForward (key_bit (MoveForward a) 2 down) a
  else if (vk =? VK_DOWN)%Z then set_MoveBack (key_bit (MoveBack a) 2 down) a
  else if (vk =? chr "R"%char)%Z then a
  else if (vk =? chr "P"%char)%Z then a
  else if (vk =? VK_F1)%Z then
    set_PostProcess PostProcess_None (set_SConfig_StereoMode Stereo_None a)
  else if (vk =? VK_F2)%Z then
    set_PostProcess PostProcess_None
      (set_SConfig_StereoMode Stereo_LeftRight_Multipass a)
  else if (vk =? VK_F3)%Z then
    set_PostProcess PostProcess_Distortion
      (set_SConfig_StereoMode Stereo_LeftRight_Multipass a)
  else if ((vk =? VK_OEM_PLUS) || (vk =? VK_INSERT))%Z then
    if down then
      set_SConfig_IPD (SConfig_IPD a + 0.0005 * (if ShiftDown a then 5 else 1)) a
    else a
  else if ((vk =? VK_OEM_MINUS) || (vk =? VK_DELETE))%Z then
    if down then
      set_SConfig_IPD (SConfig_IPD a - 0.0005 * (if ShiftDown a then 5 else 1)) a
    else a
  else if (vk =? VK_SHIFT)%Z then set_ShiftDown down a
  else if (vk =? VK_CONTROL)%Z then set_ControlDown down a
  else a.

(** [GamepadStick]: dead zone and scaling of a raw [short] stick value. *)
Definition GamepadStick (v : Z) : R :=
  if (Z.abs v <? 9000)%Z then 0
  else if (9000 <? v)%Z then (IZR v - 9000) / (32767 - 9000)
  else (IZR v + 9000) / (32767 - 9000).

(* ------------------------------------------------------------------ *)
(** * The frame: [OnIdle] *)

(** What the devices supply to one call of [OnIdle]. *)
Record FrameInput : Type := mkFrame {
  curtime : R;
    (* [GetAppTime()] *)
  hmdEuler : R * R * R;
    (* yaw, pitch, roll that [SFusion.GetOrientation()] yields through
       [GetEulerAngles<Axis_Y, Axis_X, Axis_Z>] *)
  tss_error : Z;
    (* return value of [tss_getLatestStreamData] *)
  tss_data : tss_stream_packet
    (* content of the buffer [tss_packet] after that call *)
}.

Definition newline : string := String (ascii_of_nat 10) EmptyString.

(** [if (pSensor) { ... }]: the Oculus sensor-fusion block. *)
Definition sensorFusionStage (inp : FrameInput)
    (a : OculusRoomTinyApp) : OculusRoomTinyApp :=
  if pSensor a then
    let '(yaw, pitch, roll) := hmdEuler inp in
    let a := set_EyeRoll roll (set_EyePitch pitch a) in
    let a := set_EyeYaw (EyeYaw a + (yaw - LastSensorYaw a)) a in
    set_LastSensorYaw yaw a
  else a.

(** [if (tss_isStreaming) { ... }]: the ThreeSpace block.  The error code
    is logged and the buffer is decomposed whatever the code was. *)
Definition threeSpaceStage (inp : FrameInput)
    (a : OculusRoomTinyApp) : Eff OculusRoomTinyApp :=
  if tss_isStreaming a then
    let error := tss_error inp in
    let a := set_tss_packet (tss_data inp) a in
    (if negb (error =? 0)%Z
     then tell (LogText ("TSS: getLatestStreamData error" ++ newline))
     else ret tt) ;;;
    rotator <- tss_rotator (tss_packet a) ;;
    let '(r0, r1, r2) := rotator in
    let yaw := r0 in
    let a := set_EyePitch r1 a in
    let a := set_EyeRoll r2 a in
    let a := set_EyeYaw (EyeYaw a + (yaw - LastSensorYaw a)) a in
    ret (set_LastSensorYaw yaw a)
  else ret a.

(** Gamepad rotation: yaw always, pitch only without any tracker. *)
Definition gamepadRotation (dt : R) (a : OculusRoomTinyApp) : OculusRoomTinyApp :=
  let a := set_EyeYaw (EyeYaw a - Vector3f.x (GamepadRotate a) * dt) a in
  if negb (pSensor a) && negb (tss_isStreaming a) then
    clampPitch (set_EyePitch (EyePitch a - Vector3f.y (GamepadRotate a) * dt) a)
  else a.

(** A [UByte] movement mask used as a condition. *)
Definition pressed (m : Z) : bool := negb (m =? 0)%Z.

(** [localMoveVector] before normalisation. *)
Definition localMove (a : OculusRoomTinyApp) : Vector3f :=
  let localMoveVector := Vector3f.zero in
  let localMoveVector :=
    if pressed (MoveForward a) then ForwardVector
    else if pressed (MoveBack a) then Vector3f.neg ForwardVector
    else localMoveVector in
  if pressed (MoveRight a) then Vector3f.add localMoveVector RightVector
  else if pressed (MoveLeft a) then Vector3f.sub localMoveVector RightVector
  else localMoveVector.

(** [orientationVector] of the keyboard branch. *)
Definition keyboardStep (dt : R) (a : OculusRoomTinyApp) : Vector3f :=
  let yawRotate := Matrix4f.RotationY (EyeYaw a) in
  let localMoveVector := Vector3f.Normalize (localMove a) in
  let orientationVector := Matrix4f.Transform yawRotate localMoveVector in
  Vector3f.scale orientationVector
    (MoveSpeed * dt * (if ShiftDown a then 3 else 1)).

(** [orientationVector] of the gamepad branch. *)
Definition gamepadStep (dt : R) (a : OculusRoomTinyApp) : Vector3f :=
  let yawRotate := Matrix4f.RotationY (EyeYaw a) in
  let orientationVector := Matrix4f.Transform yawRotate (GamepadMove a) in
  Vector3f.scale orientationVector (MoveSpeed * dt).

(** Keyboard movement, else gamepad movement. *)
Definition movement (dt : R) (a : OculusRoomTinyApp) : OculusRoomTinyApp :=
  if pressed (MoveForward a) || pressed (MoveBack a)
     || pressed (MoveLeft a) || pressed (MoveRight a) then
    set_EyePos (Vector3f.add (EyePos a) (keyboardStep dt a)) a
  else if Rlt_dec 0 (Vector3f.LengthSq (GamepadMove a)) then
    set_EyePos (Vector3f.add (EyePos a) (gamepadStep dt a)) a
  else a.

Definition rollPitchYaw (a : OculusRoomTinyApp) : Matrix4f :=
  Matrix4f.mul
    (Matrix4f.mul (Matrix4f.RotationY (EyeYaw a)) (Matrix4f.RotationX (EyePitch a)))
    (Matrix4f.RotationZ (EyeRoll a)).

(** Minimal head modelling. *)
Definition headBaseToEyeHeight : R := 0.15.
Definition headBaseToEyeProtrusion : R := 0.09.
Definition eyeCenterInHeadFrame : Vector3f :=
  Vector3f.mk 0 headBaseToEyeHeight (- headBaseToEyeProtrusion).

Definition shiftedEyePos (a : OculusRoomTinyApp) : Vector3f :=
  let p := Vector3f.add (EyePos a)
             (Matrix4f.Transform (rollPitchYaw a) eyeCenterInHeadFrame) in
  Vector3f.mk (Vector3f.x p)
              (Vector3f.y p - Vector3f.y eyeCenterInHeadFrame)
              (Vector3f.z p).

Definition buildView (a : OculusRoomTinyApp) : OculusRoomTinyApp :=
  let up := Matrix4f.Transform (rollPitchYaw a) UpVector in
  let forward := Matrix4f.Transform (rollPitchYaw a) ForwardVector in
  set_View (LookAtRH (shiftedEyePos a)
                     (Vector3f.add (shiftedEyePos a) forward) up) a.

(** [Render(SConfig.GetEyeRenderParams(eye))]: one scene pass. *)
Definition Render (eye : StereoEye) (a : OculusRoomTinyApp) : Eff unit :=
  tell (RenderScene (PostProcess a) eye (View a)).

Definition renderPasses (a : OculusRoomTinyApp) : Eff unit :=
  match SConfig_StereoMode a with
  | Stereo_None => Render StereoEye_Center a
  | Stereo_LeftRight_Multipass =>
      Render StereoEye_Left a ;;; Render StereoEye_Right a
  end.

Definition OnIdle (inp : FrameInput)
    (a : OculusRoomTinyApp) : Eff OculusRoomTinyApp :=
  let dt := curtime inp - LastUpdate a in
  let a := set_LastUpdate (curtime inp) a in
  let a := sensorFusionStage inp a in
  a <- threeSpaceStage inp a ;;
  let a := gamepadRotation dt a in
  let a := movement dt a in
  let a := buildView a in
  renderPasses a ;;;
  tell Present ;;;
  tell ForceFlushGPU ;;;
  ret a.

(* ------------------------------------------------------------------ *)
(** * The main loop: [Run] *)

(** One turn of the loop: a window message routed by [windowProc], or
    the idle branch that reads the pad (when its packet number changed)
    and calls [OnIdle]. *)
Inductive Event : Type :=
| MouseMotion (dx dy : Z)        (* WM_MOUSEMOVE, captured and off-centre *)
| KeyDown (vk : Z)               (* WM_KEYDOWN *)
| KeyUp (vk : Z)                 (* WM_KEYUP *)
| Close                          (* WM_QUIT, WM_CLOSE *)
| OtherMessage                   (* focus, timer, move *)
| Idle (pad : option (Z * Z * Z * Z)) (inp : FrameInput).

Definition step (e : Event) (a : OculusRoomTinyApp) : Eff OculusRoomTinyApp :=
  match e with
  | MouseMotion dx dy => ret (OnMouseMove dx dy a)
  | KeyDown vk => ret (OnKey vk true a)
  | KeyUp vk => ret (OnKey vk false a)
  | Close => ret (set_Quit true a)
  | OtherMessage => ret a
  | Idle pad inp =>
      let a :=
        match pad with
        | Some (lx, ly, rx, ry) =>
            OnGamepad (GamepadStick lx) (GamepadStick ly)
                      (GamepadStick rx) (GamepadStick ry) a
        | None => a
        end in
      OnIdle inp a
  end.

(** [while (!Quit) { ... }] over the turns the environment offers. *)
Fixpoint Run (evs : list Event) (a : OculusRoomTinyApp) : Eff OculusRoomTinyApp :=
  match evs with
  | [] => ret a
  | e :: evs' =>
      if Quit a then ret a
      else a' <- step e a ;; Run evs' a'
  end.

(* ------------------------------------------------------------------ *)
(** * Notions used in the statements *)

(** Computes field updates and field reads. *)
Ltac fields :=
  cbv beta iota delta [
    set_pSensor set_tss_isStreaming set_tss_packet set_LastUpdate
    set_EyePos set_EyeYaw set_EyePitch set_EyeRoll set_LastSensorYaw
    set_MoveForward set_MoveBack set_MoveLeft set_MoveRight set_GamepadMove
    set_GamepadRotate set_View set_SConfig_StereoMode set_SConfig_IPD
    set_PostProcess set_ShiftDown set_ControlDown set_Quit pSensor
    tss_isStreaming tss_packet LastUpdate EyePos EyeYaw EyePitch EyeRoll
    LastSensorYaw MoveForward MoveBack MoveLeft MoveRight GamepadMove
    GamepadRotate View SConfig_StereoMode SConfig_IPD PostProcess ShiftDown
    ControlDown Quit ].

(** Components of [rotator]: [rotator[0]] is the yaw, [rotator[1]] the
    pitch, [rotator[2]] the roll. *)
Definition rot_yaw (r : R * R * R) : R := fst (fst r).
Definition rot_pitch (r : R * R * R) : R := snd (fst r).
Definition rot_roll (r : R * R * R) : R := snd r.

(** The pose written by the ThreeSpace block from a decomposition. *)
Definition applyRotator (r : R * R * R) (a : OculusRoomTinyApp) : OculusRoomTinyApp :=
  set_LastSensorYaw (rot_yaw r)
    (set_EyeYaw (EyeYaw a + (rot_yaw r - LastSensorYaw a))
       (set_EyeRoll (rot_roll r) (set_EyePitch (rot_pitch r) a))).

(** What the ThreeSpace block logs for the error code of the frame. *)
Definition errorLog (inp : FrameInput) : list Effect :=
  if negb (tss_error inp =? 0)%Z
  then [LogText ("TSS: getLatestStreamData error" ++ newline)]
  else [].

(** The state before the render passes of a frame. *)
Definition tracked (inp : FrameInput) (a : OculusRoomTinyApp) : OculusRoomTinyApp :=
  fst (threeSpaceStage inp
         (sensorFusionStage inp (set_LastUpdate (curtime inp) a))).

(** An effect is harmless for [asin] when it is not a call to it or when
    the argument lies strictly between -1 and 1. *)
Definition in_asin_domain (e : Effect) : Prop :=
  match e with
  | CallAsin arg => -1 < arg < 1
  | _ => True
  end.

(** Walks down an explicit trace, leaving the [asin] obligations. *)
Ltac walk_trace :=
  repeat first [ apply Forall_nil | apply Forall_cons ];
  cbn [in_asin_domain]; try exact I.

(** The camera pose: position, yaw, pitch, roll. *)
Definition pose (a : OculusRoomTinyApp) : Vector3f * R * R * R :=
  (EyePos a, EyeYaw a, EyePitch a, EyeRoll a).

(** Yaw reading that the frame ends up storing in [LastSensorYaw]. *)
Definition trackedYaw (inp : FrameInput) (a : OculusRoomTinyApp) : R :=
  if tss_isStreaming a then rot_yaw (fst (tss_rotator (tss_data inp)))
  else if pSensor a then fst (fst (hmdEuler inp))
  else LastSensorYaw a.

(** Pitch that the tracker blocks leave behind. *)
Definition trackedPitch (inp : FrameInput) (a : OculusRoomTinyApp) : R :=
  if tss_isStreaming a then rot_pitch (fst (tss_rotator (tss_data inp)))
  else if pSensor a then snd (fst (hmdEuler inp))
  else EyePitch a.

(** Likewise for the roll. *)
Definition trackedRoll (inp : FrameInput) (a : OculusRoomTinyApp) : R :=
  if tss_isStreaming a then rot_roll (fst (tss_rotator (tss_data inp)))
  else if pSensor a then snd (hmdEuler inp)
  else EyeRoll a.

(** The pose fields that the ThreeSpace block writes agree with the
    decomposition of the packet in the buffer. *)
Definition trackerConsistent (a : OculusRoomTinyApp) : Prop :=
  let r := fst (tss_rotator (tss_packet a)) in
  EyePitch a = rot_pitch r /\
  EyeRoll a = rot_roll r /\
  LastSensorYaw a = rot_yaw r.

(** Invariant of a run with the ThreeSpace tracker streaming: roll and
    last yaw are those of the buffered packet, and so is the pitch when
    the Oculus sensor is connected as well. *)
Definition trackerInv (a : OculusRoomTinyApp) : Prop :=
  let r := fst (tss_rotator (tss_packet a)) in
  tss_isStreaming a = true /\
  EyeRoll a = rot_roll r /\
  LastSensorYaw a = rot_yaw r /\
  (pSensor a = true -> EyePitch a = rot_pitch r).

(** Invariant of a run without trackers. *)
Definition manualInv (a : OculusRoomTinyApp) : Prop :=
  pSensor a = false /\ tss_isStreaming a = false /\
  - maxPitch <= EyePitch a <= maxPitch /\
  EyeRoll a = 0.

(** Per-frame displacement produced by [movement]. *)
Definition displacement (dt : R) (a : OculusRoomTinyApp) : Vector3f :=
  Vector3f.sub (EyePos (movement dt a)) (EyePos a).

(** The condition of the keyboard branch of [movement]. *)
Definition anyMoveKey (a : OculusRoomTinyApp) : bool :=
  pressed (MoveForward a) || pressed (MoveBack a)
  || pressed (MoveLeft a) || pressed (MoveRight a).

(** Invariant of every run: the eye is at the initial height and the
    gamepad movement vector is horizontal. *)
Definition heightInv (a : OculusRoomTinyApp) : Prop :=
  Vector3f.y (EyePos a) = 1.6 /\ Vector3f.y (GamepadMove a) = 0.

(** Example states and inputs: the state in which the main loop starts
    at time 0 with the default IPD, and frames at one-second steps whose
    Oculus reading has the given yaw and whose ThreeSpace call returns
    [err] with the packet [p] in the buffer. *)
Definition started (streaming sensor : bool) : OculusRoomTinyApp :=
  OnStartup streaming sensor 0 (construct 0.064).

Definition frameAt (t yaw : R) (err : Z) (p : tss_stream_packet) : FrameInput :=
  mkFrame t (yaw, 0, 0) err p.

(* ------------------------------------------------------------------ *)
(** * Further parts of the program *)

(** [GamepadTrigger]: dead zone and scaling of a raw [BYTE] trigger
    value. *)
Definition GamepadTrigger (v : Z) : R :=
  if (v <? 30)%Z then 0 else IZR (v - 30) / 225.

(** Calls into the ThreeSpace API made by the streaming loops. *)
Inductive TssCall : Type :=
| tss_setStreamingTiming
| tss_setStreamingSlots
| tss_startStreaming
| tss_stopStreaming.

(** One pass through the body of [while (count < 3)] in [OnStartup]: the
    three nested calls, each made only when the one before returned 0.
    [resp n] is the return code of the [n]-th API call of the loop and [k]
    the number of calls made before this pass; the result tells whether
    the stream started and lists the calls of the pass. *)
Definition startAttempt (resp : nat -> Z) (k : nat) : bool * list TssCall :=
  if (resp k =? 0)%Z then
    if (resp (k + 1)%nat =? 0)%Z then
      if (resp (k + 2)%nat =? 0)%Z
      then (true, [tss_setStreamingTiming; tss_setStreamingSlots; tss_startStreaming])
      else (false, [tss_setStreamingTiming; tss_setStreamingSlots; tss_startStreaming])
    else (false, [tss_setStreamingTiming; tss_setStreamingSlots])
  else (false, [tss_setStreamingTiming]).

(** The loop itself, with [attempts] passes left; it [break]s at the
    first pass that starts the stream. *)
Fixpoint startLoop (attempts : nat) (resp : nat -> Z) (k : nat) : bool * list TssCall :=
  match attempts with
  | O => (false, [])
  | S n =>
      let (ok, calls) := startAttempt resp k in
      if ok then (true, calls)
      else
        let (ok', calls') := startLoop n resp (k + List.length calls) in
        (ok', (calls ++ calls')%list)
  end.

(** The "StartStreaming" part of [OnStartup]: the new value of
    [tss_isStreaming], the API calls made and the lines logged. *)
Definition startStreaming (isStreaming : bool) (resp : nat -> Z)
    : bool * list TssCall * list Effect :=
  let '(streaming, calls, logged) :=
    if negb isStreaming then
      let (ok, calls) := startLoop 3 resp 0 in
      (ok, calls,
       if ok then [LogText ("TSS: Start streaming success!" ++ newline)] else [])
    else (isStreaming, [], []) in
  (streaming, calls,
   logged ++
   if negb streaming
   then [LogText ("TSS: Start streaming failed!" ++ newline)] else []).

(** The loop of the "StopStreaming" part of [WinMain]: whether a call
    returned 0, and the calls made. *)
Fixpoint stopLoop (attempts : nat) (resp : nat -> Z) (k : nat) : bool * list TssCall :=
  match attempts with
  | O => (false, [])
  | S n =>
      if (resp k =? 0)%Z then (true, [tss_stopStreaming])
      else
        let (ok, calls) := stopLoop n resp (S k) in
        (ok, tss_stopStreaming :: calls)
  end.

(** The "StopStreaming" part of [WinMain]: the new value of
    [tss_isStreaming], the API calls made and the lines logged. *)
Definition stopStreaming (isStreaming : bool) (resp : nat -> Z)
    : bool * list TssCall * list Effect :=
  let '(streaming, calls, logged) :=
    if isStreaming then
      let (ok, calls) := stopLoop 3 resp 0 in
      (negb ok, calls,
       if ok then [LogText ("TSS: Stop streaming success!" ++ newline)] else [])
    else (isStreaming, [], []) in
  (streaming, calls,
   logged ++
   if streaming
   then [LogText ("TSS: Stop streaming failed!" ++ newline)] else []).

(** Scalar product of two vectors. *)
Definition dot (u v : Vector3f) : R :=
  Vector3f.x u * Vector3f.x v + Vector3f.y u * Vector3f.y v
  + Vector3f.z u * Vector3f.z v.

(** The scene passes of a trace, in order. *)
Fixpoint renders (t : list Effect) : list (PostProcessType * StereoEye * ViewMatrix) :=
  match t with
  | [] => []
  | RenderScene pp eye view :: t' => (pp, eye, view) :: renders t'
  | _ :: t' => renders t'
  end.

(** The eyes rendered in a stereo mode, in the order of the [switch] in
    [OnIdle]. *)
Definition eyesOf (m : StereoMode) : list StereoEye :=
  match m with
  | Stereo_None => [StereoEye_Center]
  | Stereo_LeftRight_Multipass => [StereoEye_Left; StereoEye_Right]
  end.

(** Effects that only the trackers' blocks produce. *)
Definition isTrackerEffect (e : Effect) : bool :=
  match e with
  | LogText _ | CallAsin _ | CallAtan2 _ _ => true
  | _ => false
  end.

(** Turns of the main loop that bring no manual yaw: a mouse motion
    without a sideways part, a pad reading with the right stick inside
    the dead zone sideways, and every turn that is neither. *)
Definition yawNeutral (e : Event) : Prop :=
  match e with
  | MouseMotion dx _ => dx = 0%Z
  | Idle (Some (_, _, rx, _)) _ => (Z.abs rx < 9000)%Z
  | _ => True
  end.

(* ================================================================== *)
(** * Properties *)

(** ** The writer monad *)

Lemma bind_fst {A B} (m : Eff A) (k : A -> Eff B) :
  fst (bind m k) = fst (k (fst m)).
Proof. unfold bind. destruct m as [a t1]. simpl. destruct (k a). reflexivity. Qed.

Lemma bind_snd {A B} (m : Eff A) (k : A -> Eff B) :
  snd (bind m k) = snd m ++ snd (k (fst m)).
Proof. unfold bind. destruct m as [a t1]. simpl. destruct (k a). reflexivity. Qed.

(** ** Quaternion decomposition *)

(** The three branches of the decomposition, read off the definition. *)
Lemma tss_rotator_inside (p : tss_stream_packet) :
  -1 < tss_s p < 1 ->
  tss_rotator p =
    ((atan2 (2 * (quat0 p * quat1 p + quat3 p * quat2 p))
            (1 - 2 * (quat1 p * quat1 p + quat2 p * quat2 p)),
      asin (tss_s p),
      atan2 (2 * (quat1 p * quat2 p + quat3 p * quat0 p))
            (1 - 2 * (quat0 p * quat0 p + quat1 p * quat1 p))),
     [CallAtan2 (2 * (quat0 p * quat1 p + quat3 p * quat2 p))
                (1 - 2 * (quat1 p * quat1 p + quat2 p * quat2 p));
      CallAsin (tss_s p);
      CallAtan2 (2 * (quat1 p * quat2 p + quat3 p * quat0 p))
                (1 - 2 * (quat0 p * quat0 p + quat1 p * quat1 p))]).
Proof.
  unfold tss_s, tss_rotator. intros [Hlo Hhi].
  destruct (Rlt_dec _ 1) as [_ | Hn]; [ | exfalso; lra ].
  destruct (Rlt_dec (-1) _) as [_ | Hn]; [ | exfalso; lra ].
  reflexivity.
Qed.

Lemma tss_rotator_north (p : tss_stream_packet) :
  1 <= tss_s p ->
  tss_rotator p =
    ((0, PI_F / 2,
      atan2 (2 * (quat0 p * quat1 p - quat3 p * quat2 p))
            (1 - 2 * (quat0 p * quat0 p + quat2 p * quat2 p))),
     [CallAtan2 (2 * (quat0 p * quat1 p - quat3 p * quat2 p))
                (1 - 2 * (quat0 p * quat0 p + quat2 p * quat2 p))]).
Proof.
  unfold tss_s, tss_rotator. intros Hs.
  destruct (Rlt_dec _ 1) as [Hn | _]; [ exfalso; lra | ].
  reflexivity.
Qed.

Lemma tss_rotator_south (p : tss_stream_packet) :
  tss_s p <= -1 ->
  tss_rotator p =
    ((0, - PI_F / 2,
      - atan2 (2 * (quat0 p * quat1 p - quat3 p * quat2 p))
              (1 - 2 * (quat0 p * quat0 p + quat2 p * quat2 p))),
     [CallAtan2 (2 * (quat0 p * quat1 p - quat3 p * quat2 p))
                (1 - 2 * (quat0 p * quat0 p + quat2 p * quat2 p))]).
Proof.
  unfold tss_s, tss_rotator. intros Hs.
  destruct (Rlt_dec _ 1) as [_ | Hn]; [ | exfalso; lra ].
  destruct (Rlt_dec (-1) _) as [Hn | _]; [ exfalso; lra | ].
  reflexivity.
Qed.

(** The branch conditions cover every packet. *)
Lemma tss_s_cases (p : tss_stream_packet) :
  -1 < tss_s p < 1 \/ 1 <= tss_s p \/ tss_s p <= -1.
Proof.
  destruct (Rlt_dec (tss_s p) 1); destruct (Rlt_dec (-1) (tss_s p)); lra.
Qed.

(** ** Shape of one frame *)

Lemma threeSpaceStage_streaming (inp : FrameInput) (a : OculusRoomTinyApp) :
  tss_isStreaming a = true ->
  threeSpaceStage inp a =
    (applyRotator (fst (tss_rotator (tss_data inp)))
                  (set_tss_packet (tss_data inp) a),
     errorLog inp ++ snd (tss_rotator (tss_data inp))).
Proof.
  intros Hs. unfold threeSpaceStage, errorLog. rewrite Hs.
  cbn [tss_packet set_tss_packet].
  destruct (tss_rotator (tss_data inp)) as [[[r0 r1] r2] tr].
  unfold applyRotator, rot_yaw, rot_pitch, rot_roll.
  destruct (negb (tss_error inp =? 0)%Z);
    cbn; rewrite app_nil_r; reflexivity.
Qed.

Lemma threeSpaceStage_silent (inp : FrameInput) (a : OculusRoomTinyApp) :
  tss_isStreaming a = false -> threeSpaceStage inp a = (a, []).
Proof. intros Hs. unfold threeSpaceStage. rewrite Hs. reflexivity. Qed.

Lemma OnIdle_fst (inp : FrameInput) (a : OculusRoomTinyApp) :
  fst (OnIdle inp a) =
    buildView (movement (curtime inp - LastUpdate a)
                 (gamepadRotation (curtime inp - LastUpdate a) (tracked inp a))).
Proof.
  unfold OnIdle, tracked. rewrite !bind_fst. reflexivity.
Qed.

Lemma OnIdle_snd (inp : FrameInput) (a : OculusRoomTinyApp) :
  snd (OnIdle inp a) =
    snd (threeSpaceStage inp
           (sensorFusionStage inp (set_LastUpdate (curtime inp) a)))
    ++ snd (renderPasses (fst (OnIdle inp a)))
    ++ [Present; ForceFlushGPU].
Proof.
  rewrite OnIdle_fst. unfold OnIdle, tracked.
  rewrite !bind_snd, ?bind_fst. reflexivity.
Qed.


(** ** The [asin] guard *)

Lemma tss_rotator_guarded (p : tss_stream_packet) :
  Forall in_asin_domain (snd (tss_rotator p)).
Proof.
  destruct (tss_s_cases p) as [H | [H | H]].
  - rewrite (tss_rotator_inside p H). cbn [snd]. walk_trace. exact H.
  - rewrite (tss_rotator_north p H). cbn [snd]. walk_trace.
  - rewrite (tss_rotator_south p H). cbn [snd]. walk_trace.
Qed.

Lemma renderPasses_guarded (a : OculusRoomTinyApp) :
  Forall in_asin_domain (snd (renderPasses a)).
Proof.
  unfold renderPasses. destruct (SConfig_StereoMode a); cbn; walk_trace.
Qed.

Lemma OnIdle_guarded (inp : FrameInput) (a : OculusRoomTinyApp) :
  Forall in_asin_domain (snd (OnIdle inp a)).
Proof.
  rewrite OnIdle_snd. rewrite !Forall_app. repeat split.
  - set (a1 := sensorFusionStage inp _).
    destruct (tss_isStreaming a1) eqn:Hs.
    + rewrite (threeSpaceStage_streaming inp a1 Hs). cbn [snd].
      apply Forall_app. split.
      * unfold errorLog. destruct (negb _); walk_trace.
      * apply tss_rotator_guarded.
    + rewrite (threeSpaceStage_silent inp a1 Hs). constructor.
  - apply renderPasses_guarded.
  - walk_trace.
Qed.

Lemma step_guarded (e : Event) (a : OculusRoomTinyApp) :
  Forall in_asin_domain (snd (step e a)).
Proof.
  destruct e; cbn [step ret snd]; try constructor.
  apply OnIdle_guarded.
Qed.

Lemma Run_guarded (evs : list Event) (a : OculusRoomTinyApp) :
  Forall in_asin_domain (snd (Run evs a)).
Proof.
  revert a. induction evs as [ | e evs IH ]; intros a; cbn [Run].
  - constructor.
  - destruct (Quit a); [ constructor | ].
    rewrite bind_snd. apply Forall_app. split.
    + apply step_guarded.
    + apply IH.
Qed.

(** C1.  The decomposition of a ThreeSpace quaternion [(x, y, z, w)],
    with [s = 2 (w y - x z)]: strictly inside (-1, 1) the yaw, pitch and
    roll are [atan2 (2 (x y + w z)) (1 - 2 (y^2 + z^2))], [asin s] and
    [atan2 (2 (y z + w x)) (1 - 2 (x^2 + y^2))]; for [s >= 1] they are 0,
    [PI_F / 2] and [atan2 (2 (x y - w z)) (1 - 2 (x^2 + z^2))]; for
    [s <= -1] they are 0, [- PI_F / 2] and the opposite of that [atan2].
    [PI_F] is the source's constant for pi.  No branch needs the
    quaternion to be of unit length. *)
Theorem tss_rotator_spec (x y z w : R) :
  let s := 2 * (w * y - x * z) in
  let r := fst (tss_rotator (mkPacket x y z w)) in
  (-1 < s < 1 ->
     rot_yaw r = atan2 (2 * (x * y + w * z)) (1 - 2 * (y * y + z * z)) /\
     rot_pitch r = asin s /\
     rot_roll r = atan2 (2 * (y * z + w * x)) (1 - 2 * (x * x + y * y))) /\
  (1 <= s ->
     rot_yaw r = 0 /\
     rot_pitch r = PI_F / 2 /\
     rot_roll r = atan2 (2 * (x * y - w * z)) (1 - 2 * (x * x + z * z))) /\
  (s <= -1 ->
     rot_yaw r = 0 /\
     rot_pitch r = - PI_F / 2 /\
     rot_roll r = - atan2 (2 * (x * y - w * z)) (1 - 2 * (x * x + z * z))).
Proof.
  intros s r. subst r. split; [ | split ]; intros H.
  - rewrite (tss_rotator_inside (mkPacket x y z w) H). repeat split.
  - rewrite (tss_rotator_north (mkPacket x y z w) H). repeat split.
  - rewrite (tss_rotator_south (mkPacket x y z w) H). repeat split.
Qed.

(** The three branches of C1 at the identity quaternion, at a north-pole
    packet with [s = 1] and at a south-pole packet with [s = -1]. *)
Lemma tss_rotator_spec_witness :
  rot_pitch (fst (tss_rotator (mkPacket 0 0 0 1))) = asin (2 * (1 * 0 - 0 * 0)) /\
  rot_pitch (fst (tss_rotator (mkPacket 0 (1 / 2) 0 1))) = PI_F / 2 /\
  rot_pitch (fst (tss_rotator (mkPacket 0 (- 1 / 2) 0 1))) = - PI_F / 2.
Proof.
  split; [ | split ].
  - apply (proj1 (tss_rotator_spec 0 0 0 1)). lra.
  - apply (proj1 (proj2 (tss_rotator_spec 0 (1 / 2) 0 1))). lra.
  - apply (proj2 (proj2 (tss_rotator_spec 0 (- 1 / 2) 0 1))). lra.
Defined.

(** C2.  Whatever the quaternion (unit or not, [s] inside, on or beyond
    the bounds), every call of [asin] made by the decomposition has its
    argument strictly between -1 and 1, and so has every call made during
    any run of the main loop; in both pole branches the yaw returned is
    0. *)
Theorem asin_guard (p : tss_stream_packet) :
  Forall in_asin_domain (snd (tss_rotator p)) /\
  (forall evs a, Forall in_asin_domain (snd (Run evs a))) /\
  (1 <= tss_s p \/ tss_s p <= -1 -> rot_yaw (fst (tss_rotator p)) = 0).
Proof.
  split; [ apply tss_rotator_guarded | split ].
  - intros evs a. apply Run_guarded.
  - intros [H | H].
    + rewrite (tss_rotator_north p H). reflexivity.
    + rewrite (tss_rotator_south p H). reflexivity.
Qed.

(** C2 at a packet beyond the north bound ([s = 2]). *)
Lemma asin_guard_witness :
  rot_yaw (fst (tss_rotator (mkPacket 0 1 0 1))) = 0.
Proof.
  apply (proj2 (proj2 (asin_guard (mkPacket 0 1 0 1)))).
  left. unfold tss_s. simpl. lra.
Defined.

(** ** What a frame does to the pose *)

Lemma movement_only_EyePos (dt : R) (a : OculusRoomTinyApp) :
  movement dt a = set_EyePos (EyePos (movement dt a)) a.
Proof.
  unfold movement.
  destruct (pressed (MoveForward a) || pressed (MoveBack a)
            || pressed (MoveLeft a) || pressed (MoveRight a)).
  - reflexivity.
  - destruct (Rlt_dec 0 (Vector3f.LengthSq (GamepadMove a))).
    + reflexivity.
    + destruct a; reflexivity.
Qed.

Lemma clampPitch_only_EyePitch (a : OculusRoomTinyApp) :
  clampPitch a = set_EyePitch (EyePitch (clampPitch a)) a.
Proof.
  unfold clampPitch.
  destruct (Rlt_dec maxPitch (EyePitch a));
    match goal with
    | |- context [Rlt_dec ?u ?v] => destruct (Rlt_dec u v)
    end; destruct a; reflexivity.
Qed.

Lemma gamepadRotation_shape (dt : R) (a : OculusRoomTinyApp) :
  gamepadRotation dt a =
    set_EyePitch (EyePitch (gamepadRotation dt a))
      (set_EyeYaw (EyeYaw a - Vector3f.x (GamepadRotate a) * dt) a).
Proof.
  unfold gamepadRotation. cbn [pSensor tss_isStreaming set_EyeYaw].
  destruct (negb (pSensor a) && negb (tss_isStreaming a)).
  - rewrite clampPitch_only_EyePitch at 1. destruct a; reflexivity.
  - destruct a; reflexivity.
Qed.

(** With any tracker connected the gamepad block leaves the pitch alone. *)
Lemma gamepadRotation_tracked_pitch (dt : R) (a : OculusRoomTinyApp) :
  pSensor a = true \/ tss_isStreaming a = true ->
  EyePitch (gamepadRotation dt a) = EyePitch a.
Proof.
  intros H. unfold gamepadRotation. cbn [pSensor tss_isStreaming set_EyeYaw].
  destruct H as [H | H]; rewrite H; rewrite ?andb_false_r; reflexivity.
Qed.

(** The tracker blocks, by cases on the two flags. *)
Lemma tracked_cases (inp : FrameInput) (a : OculusRoomTinyApp) :
  tracked inp a =
    let a0 := set_LastUpdate (curtime inp) a in
    let a1 := if pSensor a then
                set_LastSensorYaw (fst (fst (hmdEuler inp)))
                  (set_EyeYaw (EyeYaw a + (fst (fst (hmdEuler inp)) - LastSensorYaw a))
                     (set_EyeRoll (snd (hmdEuler inp))
                        (set_EyePitch (snd (fst (hmdEuler inp))) a0)))
              else a0 in
    if tss_isStreaming a then
      applyRotator (fst (tss_rotator (tss_data inp)))
                   (set_tss_packet (tss_data inp) a1)
    else a1.
Proof.
  unfold tracked, sensorFusionStage. cbn [pSensor set_LastUpdate].
  destruct (hmdEuler inp) as [[yaw pitch] roll]. cbn [fst snd].
  destruct (pSensor a) eqn:Hp; destruct (tss_isStreaming a) eqn:Hs; cbv zeta.
  - rewrite threeSpaceStage_streaming by (cbn; exact Hs). reflexivity.
  - rewrite threeSpaceStage_silent by (cbn; exact Hs). reflexivity.
  - rewrite threeSpaceStage_streaming by (cbn; exact Hs). reflexivity.
  - rewrite threeSpaceStage_silent by (cbn; exact Hs). reflexivity.
Qed.

(** Fields that no part of [OnIdle] writes. *)
Lemma tracked_frame (inp : FrameInput) (a : OculusRoomTinyApp) :
  pSensor (tracked inp a) = pSensor a /\
  tss_isStreaming (tracked inp a) = tss_isStreaming a /\
  GamepadRotate (tracked inp a) = GamepadRotate a /\
  GamepadMove (tracked inp a) = GamepadMove a /\
  EyePos (tracked inp a) = EyePos a /\
  LastUpdate (tracked inp a) = curtime inp.
Proof.
  rewrite tracked_cases. unfold applyRotator. cbv zeta.
  destruct (pSensor a) eqn:Hp; destruct (tss_isStreaming a) eqn:Hs; cbn;
    repeat split; assumption.
Qed.

Lemma tracked_yaw (inp : FrameInput) (a : OculusRoomTinyApp) :
  EyeYaw (tracked inp a) = EyeYaw a + (trackedYaw inp a - LastSensorYaw a) /\
  LastSensorYaw (tracked inp a) = trackedYaw inp a.
Proof.
  rewrite tracked_cases. unfold trackedYaw, applyRotator. cbv zeta.
  destruct (pSensor a); destruct (tss_isStreaming a); cbn; split;
    try reflexivity; ring.
Qed.

Lemma OnIdle_yaw (inp : FrameInput) (a : OculusRoomTinyApp) :
  EyeYaw (fst (OnIdle inp a)) =
    EyeYaw a + (trackedYaw inp a - LastSensorYaw a)
    - Vector3f.x (GamepadRotate a) * (curtime inp - LastUpdate a) /\
  LastSensorYaw (fst (OnIdle inp a)) = trackedYaw inp a.
Proof.
  rewrite OnIdle_fst. unfold buildView.
  rewrite movement_only_EyePos, gamepadRotation_shape.
  cbn [EyeYaw LastSensorYaw set_View set_EyePos set_EyePitch set_EyeYaw].
  destruct (tracked_frame inp a) as (_ & _ & Hg & _).
  destruct (tracked_yaw inp a) as [Hy Hl].
  rewrite Hg, Hy, Hl. split; reflexivity.
Qed.

Lemma OnIdle_frame (inp : FrameInput) (a : OculusRoomTinyApp) :
  pSensor (fst (OnIdle inp a)) = pSensor a /\
  tss_isStreaming (fst (OnIdle inp a)) = tss_isStreaming a /\
  GamepadRotate (fst (OnIdle inp a)) = GamepadRotate a /\
  GamepadMove (fst (OnIdle inp a)) = GamepadMove a /\
  LastUpdate (fst (OnIdle inp a)) = curtime inp.
Proof.
  rewrite OnIdle_fst. unfold buildView.
  rewrite movement_only_EyePos, gamepadRotation_shape.
  cbn [pSensor tss_isStreaming GamepadRotate GamepadMove LastUpdate
       set_View set_EyePos set_EyePitch set_EyeYaw].
  destruct (tracked_frame inp a) as (H1 & H2 & H3 & H4 & _ & H6).
  repeat split; assumption.
Qed.

(** The tracker blocks as one update of the state. *)
Lemma tracked_normal (inp : FrameInput) (a : OculusRoomTinyApp) :
  tracked inp a =
    set_LastSensorYaw (trackedYaw inp a)
      (set_EyeYaw (EyeYaw a + (trackedYaw inp a - LastSensorYaw a))
         (set_EyeRoll (trackedRoll inp a)
            (set_EyePitch (trackedPitch inp a)
               (set_tss_packet
                  (if tss_isStreaming a then tss_data inp else tss_packet a)
                  (set_LastUpdate (curtime inp) a))))).
Proof.
  rewrite tracked_cases.
  unfold trackedYaw, trackedPitch, trackedRoll, applyRotator. cbv zeta.
  destruct a as [ps ts pk lu pos yaw pitch roll lsy mf mb ml mr gm gr v sm ipd pp sd cd q].
  destruct ps; destruct ts; fields; cbn [fst snd]; f_equal; ring.
Qed.

(** The position after [movement] depends on the position, the yaw and
    the input state only. *)
Lemma movement_EyePos_ext (dt : R) (a b : OculusRoomTinyApp) :
  EyePos a = EyePos b -> EyeYaw a = EyeYaw b ->
  MoveForward a = MoveForward b -> MoveBack a = MoveBack b ->
  MoveLeft a = MoveLeft b -> MoveRight a = MoveRight b ->
  GamepadMove a = GamepadMove b -> ShiftDown a = ShiftDown b ->
  EyePos (movement dt a) = EyePos (movement dt b).
Proof.
  intros Hp Hy Hf Hb Hl Hr Hg Hs.
  unfold movement, keyboardStep, gamepadStep, localMove.
  rewrite Hf, Hb, Hl, Hr, Hg, Hs, Hy.
  destruct (pressed (MoveForward b) || pressed (MoveBack b)
            || pressed (MoveLeft b) || pressed (MoveRight b)).
  - cbn [EyePos set_EyePos]. rewrite Hp. reflexivity.
  - destruct (Rlt_dec 0 (Vector3f.LengthSq (GamepadMove b)));
      cbn [EyePos set_EyePos]; rewrite Hp; reflexivity.
Qed.

Lemma OnIdle_roll (inp : FrameInput) (a : OculusRoomTinyApp) :
  EyeRoll (fst (OnIdle inp a)) = trackedRoll inp a.
Proof.
  rewrite OnIdle_fst. unfold buildView.
  rewrite movement_only_EyePos, gamepadRotation_shape, tracked_normal.
  reflexivity.
Qed.

Lemma OnIdle_pitch_tracked (inp : FrameInput) (a : OculusRoomTinyApp) :
  pSensor a = true \/ tss_isStreaming a = true ->
  EyePitch (fst (OnIdle inp a)) = trackedPitch inp a.
Proof.
  intros H. rewrite OnIdle_fst. unfold buildView.
  rewrite movement_only_EyePos. cbn [EyePitch set_View set_EyePos].
  rewrite gamepadRotation_tracked_pitch.
  - rewrite tracked_normal. reflexivity.
  - destruct (tracked_frame inp a) as (H1 & H2 & _). rewrite H1, H2. exact H.
Qed.

(** Motion integration runs on the yaw of the frame and the position and
    input state the frame started with. *)
Lemma OnIdle_EyePos (inp : FrameInput) (a : OculusRoomTinyApp) :
  EyePos (fst (OnIdle inp a)) =
    EyePos (movement (curtime inp - LastUpdate a)
              (set_EyeYaw (EyeYaw (fst (OnIdle inp a))) a)).
Proof.
  rewrite (proj1 (OnIdle_yaw inp a)).
  rewrite OnIdle_fst. unfold buildView. cbn [EyePos set_View].
  apply movement_EyePos_ext;
    rewrite gamepadRotation_shape, tracked_normal; cbn; try reflexivity.
Qed.

(** A later frame reads its yaw from the same tracker. *)
Lemma trackedYaw_next (inp i : FrameInput) (a : OculusRoomTinyApp) :
  pSensor a = true \/ tss_isStreaming a = true ->
  trackedYaw inp (fst (OnIdle i a)) = trackedYaw inp a.
Proof.
  intros H. unfold trackedYaw.
  destruct (OnIdle_frame i a) as (H1 & H2 & _). rewrite H1, H2.
  destruct H as [H | H]; rewrite H; destruct (tss_isStreaming a); reflexivity.
Qed.

(** C3.  Three frames in a row with tracked-yaw readings [y0], [y1],
    [y2], starting with [LastSensorYaw = y0] and with no gamepad yaw
    input, leave [EyeYaw] at its initial value plus [y2 - y0]: the
    intermediate reading [y1] does not appear in the result. *)
Theorem yaw_integrator_telescopes
    (a : OculusRoomTinyApp) (i0 i1 i2 : FrameInput) (y0 y1 y2 : R) :
  pSensor a = true \/ tss_isStreaming a = true ->
  trackedYaw i0 a = y0 -> trackedYaw i1 a = y1 -> trackedYaw i2 a = y2 ->
  LastSensorYaw a = y0 ->
  Vector3f.x (GamepadRotate a) = 0 ->
  let a3 := fst (OnIdle i2 (fst (OnIdle i1 (fst (OnIdle i0 a))))) in
  EyeYaw a3 = EyeYaw a + (y2 - y0) /\ LastSensorYaw a3 = y2.
Proof.
  intros Ht H0 H1 H2 Hl Hg a3. subst a3.
  set (a1 := fst (OnIdle i0 a)).
  set (a2 := fst (OnIdle i1 a1)).
  assert (Ht1 : pSensor a1 = true \/ tss_isStreaming a1 = true).
  { subst a1. destruct (OnIdle_frame i0 a) as (E1 & E2 & _).
    rewrite E1, E2. exact Ht. }
  assert (Hg1 : GamepadRotate a1 = GamepadRotate a)
    by (subst a1; apply (OnIdle_frame i0 a)).
  assert (Hg2 : GamepadRotate a2 = GamepadRotate a1)
    by (subst a2; apply (OnIdle_frame i1 a1)).
  destruct (OnIdle_yaw i0 a) as [Y0 L0].
  destruct (OnIdle_yaw i1 a1) as [Y1 L1].
  destruct (OnIdle_yaw i2 a2) as [Y2 L2].
  fold a1 in Y0, L0. fold a2 in Y1, L1.
  assert (R2 : trackedYaw i2 a2 = y2).
  { subst a2. rewrite trackedYaw_next by exact Ht1.
    subst a1. rewrite trackedYaw_next by exact Ht. exact H2. }
  assert (R1 : trackedYaw i1 a1 = y1).
  { subst a1. rewrite trackedYaw_next by exact Ht. exact H1. }
  split.
  - rewrite Y2, Y1, Y0, L1, L0, Hg2, Hg1, Hg, R2, R1, H0, Hl. ring.
  - rewrite L2. exact R2.
Qed.

(** C3 on a run with the Oculus sensor: readings 2, 0 (a tare), 3. *)
Lemma yaw_integrator_telescopes_witness :
  EyeYaw
    (fst (OnIdle (frameAt 3 3 0 (mkPacket 0 0 0 1))
       (fst (OnIdle (frameAt 2 0 0 (mkPacket 0 0 0 1))
          (fst (OnIdle (frameAt 1 2 0 (mkPacket 0 0 0 1))
             (set_LastSensorYaw 2 (started false true)))))))) =
  YawInitial + (3 - 2).
Proof.
  apply (yaw_integrator_telescopes
           (set_LastSensorYaw 2 (started false true))
           (frameAt 1 2 0 (mkPacket 0 0 0 1))
           (frameAt 2 0 0 (mkPacket 0 0 0 1))
           (frameAt 3 3 0 (mkPacket 0 0 0 1)) 2 0 3).
  - left. reflexivity.
  - reflexivity.
  - reflexivity.
  - reflexivity.
  - reflexivity.
  - reflexivity.
Defined.

(** C4.  In a frame with both trackers connected the pitch, the roll and
    the yaw change applied to the pose are those of the ThreeSpace
    decomposition; the pose after the frame does not depend on the reading
    of the Oculus sensor fusion, and it is the pose the frame produces
    with the Oculus sensor absent. *)
Theorem external_tracker_precedence (inp : FrameInput) (a : OculusRoomTinyApp) :
  pSensor a = true -> tss_isStreaming a = true ->
  let a' := fst (OnIdle inp a) in
  let r := fst (tss_rotator (tss_data inp)) in
  EyePitch a' = rot_pitch r /\
  EyeRoll a' = rot_roll r /\
  EyeYaw a' = EyeYaw a + (rot_yaw r - LastSensorYaw a)
              - Vector3f.x (GamepadRotate a) * (curtime inp - LastUpdate a) /\
  LastSensorYaw a' = rot_yaw r /\
  (forall hmd,
     pose (fst (OnIdle (mkFrame (curtime inp) hmd (tss_error inp) (tss_data inp)) a))
     = pose a') /\
  pose (fst (OnIdle inp (set_pSensor false a))) = pose a'.
Proof.
  intros Hp Hs a' r.
  assert (Hy : forall i b, tss_isStreaming b = true ->
                 trackedYaw i b = rot_yaw (fst (tss_rotator (tss_data i))))
    by (intros i b Hb; unfold trackedYaw; rewrite Hb; reflexivity).
  assert (Hpi : forall i b, tss_isStreaming b = true ->
                 trackedPitch i b = rot_pitch (fst (tss_rotator (tss_data i))))
    by (intros i b Hb; unfold trackedPitch; rewrite Hb; reflexivity).
  assert (Hr : forall i b, tss_isStreaming b = true ->
                 trackedRoll i b = rot_roll (fst (tss_rotator (tss_data i))))
    by (intros i b Hb; unfold trackedRoll; rewrite Hb; reflexivity).
  assert (Epitch : EyePitch a' = rot_pitch r).
  { subst a'. rewrite OnIdle_pitch_tracked by (right; exact Hs).
    apply Hpi, Hs. }
  assert (Eroll : EyeRoll a' = rot_roll r).
  { subst a'. rewrite OnIdle_roll. apply Hr, Hs. }
  assert (Eyaw : EyeYaw a' = EyeYaw a + (rot_yaw r - LastSensorYaw a)
              - Vector3f.x (GamepadRotate a) * (curtime inp - LastUpdate a)).
  { subst a'. rewrite (proj1 (OnIdle_yaw inp a)), (Hy inp a Hs). reflexivity. }
  assert (Epos : EyePos a' =
            EyePos (movement (curtime inp - LastUpdate a)
                      (set_EyeYaw (EyeYaw a') a)))
    by (subst a'; apply OnIdle_EyePos).
  repeat split; try assumption.
  - subst a'. rewrite (proj2 (OnIdle_yaw inp a)). apply Hy, Hs.
  - intros hmd. set (inp' := mkFrame _ hmd _ _). unfold pose.
    rewrite (OnIdle_EyePos inp' a), (proj1 (OnIdle_yaw inp' a)),
      (OnIdle_pitch_tracked inp' a) by (right; exact Hs).
    rewrite (OnIdle_roll inp' a).
    rewrite (Hy inp' a Hs), (Hpi inp' a Hs), (Hr inp' a Hs).
    rewrite Epos, Epitch, Eroll, Eyaw. reflexivity.
  - set (b := set_pSensor false a). unfold pose.
    assert (Hb : tss_isStreaming b = true) by exact Hs.
    rewrite (OnIdle_EyePos inp b), (proj1 (OnIdle_yaw inp b)),
      (OnIdle_pitch_tracked inp b) by (right; exact Hb).
    rewrite (OnIdle_roll inp b).
    rewrite (Hy inp b Hb), (Hpi inp b Hb), (Hr inp b Hb).
    rewrite Epos, Epitch, Eroll, Eyaw.
    f_equal. f_equal. f_equal.
    apply movement_EyePos_ext; reflexivity.
Qed.

(** C4 on the first frame after a startup that found both trackers. *)
Lemma external_tracker_precedence_witness :
  EyePitch (fst (OnIdle (frameAt 1 1 0 (mkPacket 0 (1 / 2) 0 1))
                        (started true true))) = PI_F / 2.
Proof.
  rewrite (proj1 (external_tracker_precedence
                    (frameAt 1 1 0 (mkPacket 0 (1 / 2) 0 1))
                    (started true true) eq_refl eq_refl)).
  cbn [tss_data frameAt].
  rewrite tss_rotator_north by (unfold tss_s; simpl; lra).
  reflexivity.
Defined.

(** ** Head model *)

(** Second row of [rollPitchYaw] applied to a point: the yaw does not
    enter the vertical component. *)
Lemma rollPitchYaw_vertical (a : OculusRoomTinyApp) (v : Vector3f) :
  Vector3f.y (Matrix4f.Transform (rollPitchYaw a) v) =
    cos (EyePitch a) * sin (EyeRoll a) * Vector3f.x v
    + cos (EyePitch a) * cos (EyeRoll a) * Vector3f.y v
    - sin (EyePitch a) * Vector3f.z v.
Proof.
  unfold rollPitchYaw, Matrix4f.Transform, Matrix4f.mul,
    Matrix4f.RotationX, Matrix4f.RotationY, Matrix4f.RotationZ.
  cbn [Vector3f.y]. ring.
Qed.

(** Height of the shifted eye position: the yaw does not enter. *)
Lemma shiftedEyePos_vertical (a : OculusRoomTinyApp) :
  Vector3f.y (shiftedEyePos a) =
    Vector3f.y (EyePos a)
    + (0.15 * cos (EyePitch a) * cos (EyeRoll a) + 0.09 * sin (EyePitch a))
    - 0.15.
Proof.
  unfold shiftedEyePos. cbn [Vector3f.y Vector3f.add].
  rewrite rollPitchYaw_vertical.
  unfold eyeCenterInHeadFrame, headBaseToEyeHeight, headBaseToEyeProtrusion.
  cbn [Vector3f.x Vector3f.y Vector3f.z]. lra.
Qed.

(** C5, as the code has it.  The vertical component of the shifted eye
    position is the pivot height plus the vertical component of the
    rotated eye offset minus the fixed upright eye height 0.15, that is
    [0.15 cos pitch cos roll + 0.09 sin pitch - 0.15] above the pivot: it
    does not depend on the yaw, and it is the pivot height when pitch and
    roll are both 0. *)
Theorem head_model_height (a : OculusRoomTinyApp) :
  Vector3f.y (shiftedEyePos a) =
    Vector3f.y (EyePos a)
    + (0.15 * cos (EyePitch a) * cos (EyeRoll a) + 0.09 * sin (EyePitch a))
    - 0.15 /\
  (EyePitch a = 0 -> EyeRoll a = 0 ->
   Vector3f.y (shiftedEyePos a) = Vector3f.y (EyePos a)).
Proof.
  split; [ apply shiftedEyePos_vertical | ].
  intros Hp Hr. rewrite shiftedEyePos_vertical, Hp, Hr, cos_0, sin_0. lra.
Qed.

(** C5 at the initial pose, which is level. *)
Lemma head_model_height_witness :
  Vector3f.y (shiftedEyePos (started false false)) = 1.6.
Proof.
  apply (proj2 (head_model_height (started false false))); reflexivity.
Defined.

(** C5 as stated fails: looking straight up from the initial position
    lowers the eye by 0.06 below the pivot. *)
Lemma head_model_not_level :
  Vector3f.y (shiftedEyePos (set_EyePitch (PI / 2) (started false false)))
  <> Vector3f.y (EyePos (set_EyePitch (PI / 2) (started false false))).
Proof.
  rewrite shiftedEyePos_vertical.
  unfold started, OnStartup, construct.
  cbn [EyePitch EyeRoll EyePos set_EyePitch Vector3f.y].
  rewrite cos_PI2, sin_PI2, cos_0. lra.
Qed.

(** ** Manual pitch *)

Lemma maxPitch_pos : 0 < maxPitch.
Proof. unfold maxPitch. lra. Qed.

(** The two clamping statements bring any pitch into the bound. *)
Lemma clampPitch_bounds (a : OculusRoomTinyApp) :
  - maxPitch <= EyePitch (clampPitch a) <= maxPitch.
Proof.
  pose proof maxPitch_pos as Hm. unfold clampPitch.
  destruct (Rlt_dec maxPitch (EyePitch a)) as [H1 | H1];
    match goal with
    | |- context [Rlt_dec ?u ?v] => destruct (Rlt_dec u v) as [H2 | H2]
    end; cbn [EyePitch set_EyePitch] in *; lra.
Qed.

(** A pitch within the bound is left as it is. *)
Lemma clampPitch_inside (a : OculusRoomTinyApp) :
  - maxPitch <= EyePitch a <= maxPitch ->
  EyePitch (clampPitch a) = EyePitch a.
Proof.
  intros H. unfold clampPitch.
  destruct (Rlt_dec maxPitch (EyePitch a)) as [H1 | H1]; [ lra | ].
  destruct (Rlt_dec (EyePitch a) (- maxPitch)) as [H2 | H2]; [ lra | ].
  reflexivity.
Qed.

(** The clamped pitch depends on the pitch alone. *)
Lemma clampPitch_pitch_ext (a b : OculusRoomTinyApp) :
  EyePitch a = EyePitch b ->
  EyePitch (clampPitch a) = EyePitch (clampPitch b).
Proof.
  intros H. unfold clampPitch. rewrite H.
  destruct (Rlt_dec maxPitch (EyePitch b)); cbn [EyePitch set_EyePitch].
  - destruct (Rlt_dec maxPitch (- maxPitch)); reflexivity.
  - rewrite H. destruct (Rlt_dec (EyePitch b) (- maxPitch));
      cbn [EyePitch set_EyePitch]; [ reflexivity | exact H ].
Qed.

(** With the Oculus sensor connected the mouse handler leaves the pitch
    alone. *)
Lemma OnMouseMove_sensor_pitch (x y : Z) (a : OculusRoomTinyApp) :
  pSensor a = true -> EyePitch (OnMouseMove x y a) = EyePitch a.
Proof.
  intros H. unfold OnMouseMove. cbn [pSensor set_EyeYaw]. rewrite H.
  reflexivity.
Qed.

(** C6 fails when only the ThreeSpace tracker is connected: the guard of
    [OnMouseMove] tests [pSensor] alone, and a mouse motion of 36 units
    down moves the pitch from 0 to -0.1. *)
Theorem OnMouseMove_threespace_only_moves_pitch :
  tss_isStreaming (started true false) = true /\
  EyePitch (started true false) = 0 /\
  EyePitch (OnMouseMove 0 36 (started true false)) = - 0.1.
Proof.
  split; [ reflexivity | split; [ reflexivity | ] ].
  unfold OnMouseMove, started.
  cbn [pSensor OnStartup negb set_EyeYaw construct].
  rewrite clampPitch_inside;
    unfold OnStartup, construct, maxPitch, Sensitivity; fields; lra.
Qed.

(** ** A frame without a new sample *)

Lemma atan2_0_1 (num den : R) : num = 0 -> den = 1 -> atan2 num den = 0.
Proof.
  intros -> ->. unfold atan2.
  destruct (Rlt_dec 0 1) as [_ | H]; [ | exfalso; lra ].
  replace (0 / 1) with 0 by field. apply atan_0.
Qed.

(** The zero-initialised buffer decomposes to the level pose. *)
Lemma tss_rotator_zero : fst (tss_rotator (mkPacket 0 0 0 0)) = (0, 0, 0).
Proof.
  rewrite tss_rotator_inside by (unfold tss_s; cbn; lra).
  unfold tss_s. cbn [fst quat0 quat1 quat2 quat3].
  rewrite !atan2_0_1 by ring.
  replace (2 * (0 * 0 - 0 * 0)) with 0 by ring.
  rewrite asin_0. reflexivity.
Qed.

(** The state after startup is consistent, ... *)
Lemma started_consistent (streaming sensor : bool) (now ipd : R) :
  trackerConsistent (OnStartup streaming sensor now (construct ipd)).
Proof.
  unfold trackerConsistent, OnStartup, construct. fields.
  rewrite tss_rotator_zero. repeat split.
Qed.

(** ... and so is the state after every frame that ran the ThreeSpace
    block. *)
Lemma OnIdle_consistent (inp : FrameInput) (a : OculusRoomTinyApp) :
  tss_isStreaming a = true -> trackerConsistent (fst (OnIdle inp a)).
Proof.
  intros Hs. unfold trackerConsistent. cbv zeta.
  assert (Hk : tss_packet (fst (OnIdle inp a)) = tss_data inp).
  { rewrite OnIdle_fst. unfold buildView.
    rewrite movement_only_EyePos, gamepadRotation_shape, tracked_normal.
    rewrite Hs. reflexivity. }
  rewrite Hk, OnIdle_roll, (proj2 (OnIdle_yaw inp a)).
  rewrite OnIdle_pitch_tracked by (right; exact Hs).
  unfold trackedPitch, trackedRoll, trackedYaw. rewrite Hs. repeat split.
Qed.




(** ** What the handlers leave alone *)

Lemma OnKey_frame (vk : Z) (down : bool) (a : OculusRoomTinyApp) :
  pSensor (OnKey vk down a) = pSensor a /\
  tss_isStreaming (OnKey vk down a) = tss_isStreaming a /\
  EyePitch (OnKey vk down a) = EyePitch a /\
  EyeRoll (OnKey vk down a) = EyeRoll a /\
  EyePos (OnKey vk down a) = EyePos a /\
  GamepadMove (OnKey vk down a) = GamepadMove a.
Proof.
  unfold OnKey.
  repeat match goal with
         | |- context [if ?c then _ else _] => destruct c
         end; repeat split.
Qed.

Lemma OnGamepad_frame (lx ly rx ry : R) (a : OculusRoomTinyApp) :
  pSensor (OnGamepad lx ly rx ry a) = pSensor a /\
  tss_isStreaming (OnGamepad lx ly rx ry a) = tss_isStreaming a /\
  EyePitch (OnGamepad lx ly rx ry a) = EyePitch a /\
  EyeRoll (OnGamepad lx ly rx ry a) = EyeRoll a /\
  EyePos (OnGamepad lx ly rx ry a) = EyePos a /\
  Vector3f.y (GamepadMove (OnGamepad lx ly rx ry a)) = 0.
Proof. unfold OnGamepad. repeat split. Qed.

Lemma OnMouseMove_frame (x y : Z) (a : OculusRoomTinyApp) :
  pSensor (OnMouseMove x y a) = pSensor a /\
  tss_isStreaming (OnMouseMove x y a) = tss_isStreaming a /\
  EyeRoll (OnMouseMove x y a) = EyeRoll a /\
  EyePos (OnMouseMove x y a) = EyePos a /\
  GamepadMove (OnMouseMove x y a) = GamepadMove a.
Proof.
  unfold OnMouseMove. cbn [pSensor set_EyeYaw].
  destruct (negb (pSensor a)).
  - rewrite clampPitch_only_EyePitch. repeat split.
  - repeat split.
Qed.

(** Without any tracker the frame integrates the gamepad pitch and
    clamps it. *)
Lemma OnIdle_pitch_manual (inp : FrameInput) (a : OculusRoomTinyApp) :
  pSensor a = false -> tss_isStreaming a = false ->
  EyePitch (fst (OnIdle inp a)) =
    EyePitch (clampPitch
      (set_EyePitch
         (EyePitch a - Vector3f.y (GamepadRotate a) * (curtime inp - LastUpdate a))
         a)).
Proof.
  intros Hp Hs. rewrite OnIdle_fst. unfold buildView.
  rewrite movement_only_EyePos. cbn [EyePitch set_View set_EyePos].
  unfold gamepadRotation. cbn [pSensor tss_isStreaming set_EyeYaw].
  destruct (tracked_frame inp a) as (H1 & H2 & H3 & _).
  rewrite H1, H2, Hp, Hs. cbn [negb andb].
  apply clampPitch_pitch_ext.
  cbn [EyePitch set_EyePitch set_EyeYaw GamepadRotate].
  rewrite H3, tracked_normal.
  cbn [EyePitch set_LastSensorYaw set_EyeYaw set_EyeRoll set_EyePitch].
  unfold trackedPitch. rewrite Hp, Hs. reflexivity.
Qed.

(** ** Manual pitch stays clamped *)

Lemma PI_lower : 3.1415 < PI.
Proof.
  destruct (PI_2_3_7_ineq 2) as [H _].
  unfold sum_f_R0, tg_alt, PI_2_3_7_tg, Ratan_seq in H.
  simpl in H. lra.
Qed.

(** The source's bound lies below the bound with the true pi. *)
Lemma maxPitch_below : maxPitch < (PI / 2) * 0.98.
Proof. pose proof PI_lower. unfold maxPitch. lra. Qed.

Lemma OnMouseMove_manual_bounds (x y : Z) (a : OculusRoomTinyApp) :
  pSensor a = false ->
  - maxPitch <= EyePitch (OnMouseMove x y a) <= maxPitch.
Proof.
  intros Hp. unfold OnMouseMove. cbn [pSensor set_EyeYaw]. rewrite Hp.
  cbn [negb]. apply clampPitch_bounds.
Qed.

Lemma step_manualInv (e : Event) (a : OculusRoomTinyApp) :
  manualInv a -> manualInv (fst (step e a)).
Proof.
  intros (Hp & Hs & Hb & Hr). unfold manualInv.
  destruct e as [dx dy | vk | vk | | | pad inp]; cbn [step ret fst].
  - destruct (OnMouseMove_frame dx dy a) as (E1 & E2 & E3 & _).
    rewrite E1, E2, E3. repeat split; try assumption;
      apply OnMouseMove_manual_bounds; exact Hp.
  - destruct (OnKey_frame vk true a) as (E1 & E2 & E3 & E4 & _).
    rewrite E1, E2, E3, E4. repeat split; try assumption; apply Hb.
  - destruct (OnKey_frame vk false a) as (E1 & E2 & E3 & E4 & _).
    rewrite E1, E2, E3, E4. repeat split; try assumption; apply Hb.
  - repeat split; try assumption; apply Hb.
  - repeat split; try assumption; apply Hb.
  - set (b := match pad with Some _ => _ | None => a end).
    assert (Hb' : pSensor b = false /\ tss_isStreaming b = false /\ EyeRoll b = 0).
    { subst b. destruct pad as [[[[lx ly] rx] ry] | ]; [ | auto ].
      destruct (OnGamepad_frame (GamepadStick lx) (GamepadStick ly)
                  (GamepadStick rx) (GamepadStick ry) a) as (E1 & E2 & _ & E4 & _).
      rewrite E1, E2, E4. auto. }
    destruct Hb' as (Bp & Bs & Br).
    destruct (OnIdle_frame inp b) as (E1 & E2 & _).
    rewrite E1, E2, OnIdle_roll, (OnIdle_pitch_manual inp b Bp Bs).
    unfold trackedRoll. rewrite Bp, Bs.
    repeat split; try assumption; apply clampPitch_bounds.
Qed.

Lemma Run_manualInv (evs : list Event) (a : OculusRoomTinyApp) :
  manualInv a -> manualInv (fst (Run evs a)).
Proof.
  revert a. induction evs as [ | e evs IH ]; intros a Ha; cbn [Run].
  - exact Ha.
  - destruct (Quit a); [ exact Ha | ].
    rewrite bind_fst. apply IH, step_manualInv, Ha.
Qed.

Lemma started_manualInv (now ipd : R) :
  manualInv (OnStartup false false now (construct ipd)).
Proof.
  pose proof maxPitch_pos.
  unfold manualInv, OnStartup, construct. fields. repeat split; lra.
Qed.

(** C8.  Without any tracker the pitch is within [maxPitch], hence within
    (pi/2) 0.98, after every mouse motion and after every frame, from
    whatever pitch they start; and along every run of the main loop from
    the initial pose the pitch keeps that bound and the roll stays 0. *)
Theorem manual_pitch_clamped :
  maxPitch < (PI / 2) * 0.98 /\
  (forall x y a, pSensor a = false -> tss_isStreaming a = false ->
     Rabs (EyePitch (OnMouseMove x y a)) <= maxPitch) /\
  (forall inp a, pSensor a = false -> tss_isStreaming a = false ->
     Rabs (EyePitch (fst (OnIdle inp a))) <= maxPitch) /\
  (forall evs now ipd,
     let a := fst (Run evs (OnStartup false false now (construct ipd))) in
     Rabs (EyePitch a) <= (PI / 2) * 0.98 /\ EyeRoll a = 0).
Proof.
  split; [ exact maxPitch_below | ].
  split; [ | split ].
  - intros x y a Hp _. apply Rabs_le, OnMouseMove_manual_bounds, Hp.
  - intros inp a Hp Hs. rewrite (OnIdle_pitch_manual inp a Hp Hs).
    apply Rabs_le, clampPitch_bounds.
  - intros evs now ipd a.
    destruct (Run_manualInv evs _ (started_manualInv now ipd))
      as (_ & _ & Hb & Hr).
    fold a in Hb, Hr. split; [ | exact Hr ].
    apply Rle_trans with maxPitch.
    + apply Rabs_le, Hb.
    + left. exact maxPitch_below.
Qed.

(** C8 for a mouse motion far beyond the bound, from the initial pose. *)
Lemma manual_pitch_clamped_witness :
  Rabs (EyePitch (OnMouseMove 0 100000 (started false false))) <= maxPitch.
Proof.
  apply (proj1 (proj2 manual_pitch_clamped)); reflexivity.
Defined.

(** ** Vectors and the yaw rotation *)

Lemma LengthSq_nonneg (v : Vector3f) : 0 <= Vector3f.LengthSq v.
Proof. unfold Vector3f.LengthSq. nra. Qed.

Lemma LengthSq_scale (v : Vector3f) (k : R) :
  Vector3f.LengthSq (Vector3f.scale v k) = (k * k) * Vector3f.LengthSq v.
Proof. unfold Vector3f.LengthSq, Vector3f.scale. cbn. ring. Qed.

Lemma Length_scale (v : Vector3f) (k : R) :
  Vector3f.Length (Vector3f.scale v k) = Rabs k * Vector3f.Length v.
Proof.
  unfold Vector3f.Length. rewrite LengthSq_scale.
  rewrite sqrt_mult; [ | nra | apply LengthSq_nonneg ].
  fold (Rsqr k). rewrite sqrt_Rsqr_abs. reflexivity.
Qed.

(** The rotation about the vertical axis keeps lengths ... *)
Lemma LengthSq_RotationY (yaw : R) (v : Vector3f) :
  Vector3f.LengthSq (Matrix4f.Transform (Matrix4f.RotationY yaw) v) =
  Vector3f.LengthSq v.
Proof.
  pose proof (sin2_cos2 yaw) as H. unfold Rsqr in H.
  unfold Vector3f.LengthSq, Matrix4f.Transform, Matrix4f.RotationY. cbn.
  transitivity
    ((sin yaw * sin yaw + cos yaw * cos yaw)
     * (Vector3f.x v * Vector3f.x v + Vector3f.z v * Vector3f.z v)
     + Vector3f.y v * Vector3f.y v); [ ring | rewrite H; ring ].
Qed.

(** ... and keeps the vertical component. *)
Lemma RotationY_vertical (yaw : R) (v : Vector3f) :
  Vector3f.y (Matrix4f.Transform (Matrix4f.RotationY yaw) v) = Vector3f.y v.
Proof. unfold Matrix4f.Transform, Matrix4f.RotationY. cbn. ring. Qed.

Lemma Length_Normalize (v : Vector3f) :
  0 < Vector3f.LengthSq v -> Vector3f.Length (Vector3f.Normalize v) = 1.
Proof.
  intros H. unfold Vector3f.Normalize, Vector3f.div.
  rewrite Length_scale.
  assert (Hl : 0 < Vector3f.Length v) by (apply sqrt_lt_R0; exact H).
  rewrite Rabs_pos_eq.
  - field. lra.
  - unfold Rdiv. rewrite Rmult_1_l. left. apply Rinv_0_lt_compat. exact Hl.
Qed.

Lemma sub_add_cancel (p k : Vector3f) :
  Vector3f.sub (Vector3f.add p k) p = k.
Proof.
  destruct p as [px py pz], k as [kx ky kz].
  unfold Vector3f.sub, Vector3f.add. cbn. f_equal; ring.
Qed.

(** ** Keyboard movement *)

(** The local movement vector has no vertical part ... *)
Lemma localMove_vertical (a : OculusRoomTinyApp) :
  Vector3f.y (localMove a) = 0.
Proof.
  unfold localMove.
  destruct (pressed (MoveForward a)); destruct (pressed (MoveBack a));
    destruct (pressed (MoveRight a)); destruct (pressed (MoveLeft a));
    cbn; ring.
Qed.

(** ... and is not the zero vector once a movement key is down. *)
Lemma localMove_nonzero (a : OculusRoomTinyApp) :
  anyMoveKey a = true -> 0 < Vector3f.LengthSq (localMove a).
Proof.
  unfold anyMoveKey, localMove, Vector3f.LengthSq.
  destruct (pressed (MoveForward a)); destruct (pressed (MoveBack a));
    destruct (pressed (MoveRight a)); destruct (pressed (MoveLeft a));
    cbn; intros H; try discriminate H; lra.
Qed.

Lemma displacement_keyboard (dt : R) (a : OculusRoomTinyApp) :
  anyMoveKey a = true -> displacement dt a = keyboardStep dt a.
Proof.
  unfold anyMoveKey, displacement, movement. intros H. rewrite H.
  cbn [EyePos set_EyePos]. apply sub_add_cancel.
Qed.

(** Whatever the keys, the yaw and the sign of [dt], a keyboard step has
    length speed x |dt| x boost. *)
Lemma keyboard_speed (dt : R) (a : OculusRoomTinyApp) :
  anyMoveKey a = true ->
  Vector3f.Length (displacement dt a) =
    MoveSpeed * Rabs dt * (if ShiftDown a then 3 else 1).
Proof.
  intros H. rewrite (displacement_keyboard dt a H).
  unfold keyboardStep. rewrite Length_scale.
  unfold Vector3f.Length at 1. rewrite LengthSq_RotationY.
  fold (Vector3f.Length (Vector3f.Normalize (localMove a))).
  rewrite Length_Normalize by (apply localMove_nonzero; exact H).
  rewrite !Rabs_mult, Rmult_1_r.
  rewrite (Rabs_pos_eq MoveSpeed) by (unfold MoveSpeed; lra).
  rewrite (Rabs_pos_eq (if ShiftDown a then 3 else 1))
    by (destruct (ShiftDown a); lra).
  reflexivity.
Qed.

(** C9.  With forward and strafe-right pressed (state [a]) the frame's
    displacement has the same length as with forward alone (state [b]),
    whatever the two yaws and whatever [dt], when the shift state is the
    same: both lengths are [MoveSpeed] x |dt| x (3 with shift, else 1).
    A set forward bit decides the forward component whatever the back
    bit is, and a set right bit decides the sideways component whatever
    the left bit is. *)
Theorem diagonal_move_not_faster (dt : R) (a b : OculusRoomTinyApp) :
  pressed (MoveForward a) = true -> pressed (MoveRight a) = true ->
  pressed (MoveForward b) = true ->
  pressed (MoveRight b) = false -> pressed (MoveLeft b) = false ->
  ShiftDown a = ShiftDown b ->
  Vector3f.Length (displacement dt a) = Vector3f.Length (displacement dt b) /\
  Vector3f.Length (displacement dt b) =
    MoveSpeed * Rabs dt * (if ShiftDown b then 3 else 1) /\
  localMove a = Vector3f.add ForwardVector RightVector /\
  localMove b = ForwardVector /\
  (forall c, pressed (MoveForward c) = true ->
     Vector3f.z (localMove c) = Vector3f.z ForwardVector) /\
  (forall c, pressed (MoveRight c) = true ->
     Vector3f.x (localMove c) = Vector3f.x RightVector).
Proof.
  intros Fa Ra Fb Rb Lb Hs.
  assert (Ka : anyMoveKey a = true)
    by (unfold anyMoveKey; rewrite Fa; reflexivity).
  assert (Kb : anyMoveKey b = true)
    by (unfold anyMoveKey; rewrite Fb; reflexivity).
  repeat split.
  - rewrite (keyboard_speed dt a Ka), (keyboard_speed dt b Kb), Hs.
    reflexivity.
  - apply keyboard_speed, Kb.
  - unfold localMove. rewrite Fa, Ra. reflexivity.
  - unfold localMove. rewrite Fb, Rb, Lb. reflexivity.
  - intros c Fc. unfold localMove. rewrite Fc.
    destruct (pressed (MoveRight c)); destruct (pressed (MoveLeft c));
      cbn; ring.
  - intros c Rc. unfold localMove. rewrite Rc.
    destruct (pressed (MoveForward c)); destruct (pressed (MoveBack c));
      cbn; ring.
Qed.

(** C9 with W and D held against W alone, at different yaws. *)
Lemma diagonal_move_not_faster_witness :
  Vector3f.Length
    (displacement 0.5 (OnKey (chr "D") true (OnKey (chr "W") true (started false false))))
  = Vector3f.Length
      (displacement 0.5 (set_EyeYaw 1 (OnKey (chr "W") true (started false false)))).
Proof.
  apply (diagonal_move_not_faster 0.5
           (OnKey (chr "D") true (OnKey (chr "W") true (started false false)))
           (set_EyeYaw 1 (OnKey (chr "W") true (started false false))));
    reflexivity.
Defined.

(** ** Camera height *)

(** A movement step adds nothing to the height when the gamepad vector is
    horizontal. *)
Lemma movement_vertical (dt : R) (a : OculusRoomTinyApp) :
  Vector3f.y (GamepadMove a) = 0 ->
  Vector3f.y (EyePos (movement dt a)) = Vector3f.y (EyePos a).
Proof.
  intros Hg. unfold movement.
  destruct (pressed (MoveForward a) || pressed (MoveBack a)
            || pressed (MoveLeft a) || pressed (MoveRight a)).
  - cbn [EyePos set_EyePos]. unfold keyboardStep.
    cbn [Vector3f.add Vector3f.scale Vector3f.y].
    rewrite RotationY_vertical.
    unfold Vector3f.Normalize, Vector3f.div.
    cbn [Vector3f.scale Vector3f.y]. rewrite localMove_vertical. ring.
  - destruct (Rlt_dec 0 (Vector3f.LengthSq (GamepadMove a))); [ | reflexivity ].
    cbn [EyePos set_EyePos]. unfold gamepadStep.
    cbn [Vector3f.add Vector3f.scale Vector3f.y].
    rewrite RotationY_vertical, Hg. ring.
Qed.

Lemma OnIdle_heightInv (inp : FrameInput) (a : OculusRoomTinyApp) :
  heightInv a -> heightInv (fst (OnIdle inp a)).
Proof.
  intros [Hy Hg]. unfold heightInv.
  rewrite OnIdle_EyePos, movement_vertical by exact Hg.
  destruct (OnIdle_frame inp a) as (_ & _ & _ & E & _). rewrite E.
  split; assumption.
Qed.

Lemma step_heightInv (e : Event) (a : OculusRoomTinyApp) :
  heightInv a -> heightInv (fst (step e a)).
Proof.
  intros [Hy Hg]. unfold heightInv.
  destruct e as [dx dy | vk | vk | | | pad inp]; cbn [step ret fst].
  - destruct (OnMouseMove_frame dx dy a) as (_ & _ & _ & E1 & E2).
    rewrite E1, E2. split; assumption.
  - destruct (OnKey_frame vk true a) as (_ & _ & _ & _ & E1 & E2).
    rewrite E1, E2. split; assumption.
  - destruct (OnKey_frame vk false a) as (_ & _ & _ & _ & E1 & E2).
    rewrite E1, E2. split; assumption.
  - split; assumption.
  - split; assumption.
  - apply OnIdle_heightInv.
    destruct pad as [[[[lx ly] rx] ry] | ]; [ | split; assumption ].
    destruct (OnGamepad_frame (GamepadStick lx) (GamepadStick ly)
                (GamepadStick rx) (GamepadStick ry) a) as (_ & _ & _ & _ & E1 & E2).
    unfold heightInv. rewrite E1, E2. split; [ assumption | reflexivity ].
Qed.

Lemma Run_heightInv (evs : list Event) (a : OculusRoomTinyApp) :
  heightInv a -> heightInv (fst (Run evs a)).
Proof.
  revert a. induction evs as [ | e evs IH ]; intros a Ha; cbn [Run].
  - exact Ha.
  - destruct (Quit a); [ exact Ha | ].
    rewrite bind_fst. apply IH, step_heightInv, Ha.
Qed.

(** C10.  Whatever the movement bits (those of [a]) and whatever the
    stick values last given to [OnGamepad], the motion-integration step
    leaves the height of [EyePos] as it was; and along every run of the
    main loop, with or without trackers, [EyePos] stays at the initial
    height 1.6. *)
Theorem eye_height_constant :
  (forall dt padLx padLy padRx padRy a,
     Vector3f.y (EyePos (movement dt (OnGamepad padLx padLy padRx padRy a)))
     = Vector3f.y (EyePos a)) /\
  (forall evs streaming sensor now ipd,
     Vector3f.y
       (EyePos (fst (Run evs (OnStartup streaming sensor now (construct ipd)))))
     = 1.6).
Proof.
  split.
  - intros dt lx ly rx ry a.
    destruct (OnGamepad_frame lx ly rx ry a) as (_ & _ & _ & _ & E1 & E2).
    rewrite movement_vertical by exact E2. rewrite E1. reflexivity.
  - intros evs streaming sensor now ipd.
    apply Run_heightInv. split; reflexivity.
Qed.

(** ** The tracker's values along a run *)

Lemma OnKey_tracker_fields (vk : Z) (down : bool) (a : OculusRoomTinyApp) :
  tss_packet (OnKey vk down a) = tss_packet a /\
  LastSensorYaw (OnKey vk down a) = LastSensorYaw a.
Proof.
  unfold OnKey.
  repeat match goal with
         | |- context [if ?c then _ else _] => destruct c
         end; split; reflexivity.
Qed.

Lemma OnMouseMove_tracker_fields (x y : Z) (a : OculusRoomTinyApp) :
  tss_packet (OnMouseMove x y a) = tss_packet a /\
  LastSensorYaw (OnMouseMove x y a) = LastSensorYaw a.
Proof.
  unfold OnMouseMove. cbn [pSensor set_EyeYaw].
  destruct (negb (pSensor a)).
  - rewrite clampPitch_only_EyePitch. split; reflexivity.
  - split; reflexivity.
Qed.

Lemma started_trackerInv (sensor : bool) (now ipd : R) :
  trackerInv (OnStartup true sensor now (construct ipd)).
Proof.
  destruct (started_consistent true sensor now ipd) as (Cp & Cr & Cy).
  unfold trackerInv. cbv zeta. repeat split; try assumption.
  intros _. exact Cp.
Qed.

Lemma step_trackerInv (e : Event) (a : OculusRoomTinyApp) :
  trackerInv a -> trackerInv (fst (step e a)).
Proof.
  intros (Hs & Hr & Hy & Hp). unfold trackerInv. cbv zeta.
  destruct e as [dx dy | vk | vk | | | pad inp]; cbn [step ret fst].
  - destruct (OnMouseMove_frame dx dy a) as (E1 & E2 & E3 & _).
    destruct (OnMouseMove_tracker_fields dx dy a) as (E4 & E5).
    rewrite E1, E2, E3, E4, E5. repeat split; try assumption.
    intros Hps. rewrite (OnMouseMove_sensor_pitch dx dy a Hps). apply Hp, Hps.
  - destruct (OnKey_frame vk true a) as (E1 & E2 & E3 & E4 & _).
    destruct (OnKey_tracker_fields vk true a) as (E5 & E6).
    rewrite E1, E2, E3, E4, E5, E6. repeat split; assumption.
  - destruct (OnKey_frame vk false a) as (E1 & E2 & E3 & E4 & _).
    destruct (OnKey_tracker_fields vk false a) as (E5 & E6).
    rewrite E1, E2, E3, E4, E5, E6. repeat split; assumption.
  - repeat split; assumption.
  - repeat split; assumption.
  - set (b := match pad with Some _ => _ | None => a end).
    assert (Hb : tss_isStreaming b = true).
    { subst b. destruct pad as [[[[lx ly] rx] ry] | ]; exact Hs. }
    destruct (OnIdle_consistent inp b Hb) as (Cp & Cr & Cy).
    destruct (OnIdle_frame inp b) as (_ & E2 & _).
    rewrite E2. repeat split; try assumption.
    intros _. exact Cp.
Qed.

(** In every state reached from a startup that found the ThreeSpace
    tracker, roll and last yaw are those of the buffered packet; so is
    the pitch when the Oculus sensor is connected too. *)
Lemma Run_trackerInv (evs : list Event) (sensor : bool) (now ipd : R) :
  trackerInv (fst (Run evs (OnStartup true sensor now (construct ipd)))).
Proof.
  generalize (started_trackerInv sensor now ipd).
  generalize (OnStartup true sensor now (construct ipd)).
  induction evs as [ | e evs IH ]; intros a Ha; cbn [Run].
  - exact Ha.
  - destruct (Quit a); [ exact Ha | ].
    rewrite bind_fst. apply IH, step_trackerInv, Ha.
Qed.

(** ** The handlers on concrete keys and stick values *)

Example OnKey_W_down :
  MoveForward (OnKey (chr "W") true (started false false)) = 1%Z.
Proof. reflexivity. Qed.

Example OnKey_W_up_keeps_arrow_bit :
  MoveForward (OnKey (chr "W") false (set_MoveForward 3 (started false false)))
  = 2%Z.
Proof. reflexivity. Qed.

Example OnKey_escape_release_quits :
  Quit (OnKey VK_ESCAPE false (started false false)) = true.
Proof. reflexivity. Qed.

Example GamepadStick_dead_zone : GamepadStick 8999 = 0.
Proof. reflexivity. Qed.

Example GamepadStick_full_deflection : GamepadStick 32767 = 1.
Proof. unfold GamepadStick. cbn [Z.abs Z.ltb Z.compare Pos.compare]. simpl. lra. Qed.

Example Run_stops_after_close :
  fst (Run [Close; KeyDown (chr "W")] (started false false))
  = set_Quit true (started false false).
Proof. reflexivity. Qed.

(* ================================================================== *)
(** * Further properties *)

(** ** Gamepad scaling *)

(** The three regimes of [GamepadStick]. *)
Lemma GamepadStick_dead (v : Z) : (Z.abs v < 9000)%Z -> GamepadStick v = 0.
Proof.
  intros H. unfold GamepadStick.
  destruct (Z.ltb_spec (Z.abs v) 9000); [ reflexivity | lia ].
Qed.

Lemma GamepadStick_above (v : Z) :
  (9000 < v)%Z -> GamepadStick v = (IZR v - 9000) / 23767.
Proof.
  intros H. unfold GamepadStick.
  destruct (Z.ltb_spec (Z.abs v) 9000); [ lia | ].
  destruct (Z.ltb_spec 9000 v); [ | lia ].
  replace (32767 - 9000) with 23767 by lra. reflexivity.
Qed.

Lemma GamepadStick_below (v : Z) :
  (v <= -9000)%Z \/ v = 9000%Z -> GamepadStick v = (IZR v + 9000) / 23767.
Proof.
  intros H. unfold GamepadStick.
  destruct (Z.ltb_spec (Z.abs v) 9000); [ lia | ].
  destruct (Z.ltb_spec 9000 v); [ lia | ].
  replace (32767 - 9000) with 23767 by lra. reflexivity.
Qed.

(** X1.  For every [short] stick value the scaled value lies between
    -23768/23767 and 1: it is 0 inside the dead zone, never negative for
    a non-negative raw value and never positive for a non-positive one.
    The lower bound is attained at -32768 and is below -1. *)
Theorem GamepadStick_range (v : Z) :
  (-32768 <= v <= 32767)%Z ->
  - (23768 / 23767) <= GamepadStick v <= 1 /\
  ((Z.abs v < 9000)%Z -> GamepadStick v = 0) /\
  ((0 <= v)%Z -> 0 <= GamepadStick v) /\
  ((v <= 0)%Z -> GamepadStick v <= 0) /\
  GamepadStick (-32768) = - (23768 / 23767).
Proof.
  intros [Hlo Hhi].
  assert (Rlo : -32768 <= IZR v) by (apply IZR_le; exact Hlo).
  assert (Rhi : IZR v <= 32767) by (apply IZR_le; exact Hhi).
  assert (Hlast : GamepadStick (-32768) = - (23768 / 23767))
    by (rewrite GamepadStick_below by lia; lra).
  assert (Hcase : (Z.abs v < 9000 \/ 9000 < v \/ v = 9000 \/ v <= -9000)%Z)
    by lia.
  destruct Hcase as [Hd | [Ha | [He | Hb]]].
  - rewrite (GamepadStick_dead v Hd).
    split; [ lra | ]. split; [ reflexivity | ].
    split; [ intros _; lra | ]. split; [ intros _; lra | exact Hlast ].
  - assert (Rv : 9000 < IZR v) by (apply IZR_lt; exact Ha).
    rewrite (GamepadStick_above v Ha).
    split; [ lra | ]. split; [ intros Hx; lia | ].
    split; [ intros _; lra | ]. split; [ intros Hx; lia | exact Hlast ].
  - subst v. rewrite GamepadStick_below by lia.
    split; [ lra | ]. split; [ intros Hx; lia | ].
    split; [ intros _; lra | ]. split; [ intros Hx; lia | exact Hlast ].
  - assert (Rv : IZR v <= -9000) by (apply IZR_le; exact Hb).
    rewrite (GamepadStick_below v (or_introl Hb)).
    split; [ lra | ]. split; [ intros Hx; lia | ].
    split; [ intros Hx; lia | ]. split; [ intros _; lra | exact Hlast ].
Qed.

(** X1 at half deflection to the left. *)
Lemma GamepadStick_range_witness : GamepadStick (-16384) <= 0.
Proof.
  apply (proj1 (proj2 (proj2 (proj2 (GamepadStick_range (-16384) ltac:(lia)))))).
  lia.
Defined.

(** X2.  The dead zone ends with a jump: the raw value 9000 is scaled to
    18000/23767, more than every raw value between 9001 and 26999, so
    the scaling is not monotone there. *)
Theorem GamepadStick_jump_at_9000 (v : Z) :
  (9000 < v < 27000)%Z ->
  GamepadStick v < GamepadStick 9000 /\ GamepadStick 9000 = 18000 / 23767.
Proof.
  intros [Hlo Hhi].
  assert (Rhi : IZR v < 27000) by (apply IZR_lt; exact Hhi).
  rewrite (GamepadStick_above v Hlo), GamepadStick_below by lia.
  split; lra.
Qed.

(** X2 at the raw value 9001. *)
Lemma GamepadStick_jump_at_9000_witness : GamepadStick 9001 < GamepadStick 9000.
Proof. apply (GamepadStick_jump_at_9000 9001). lia. Defined.

(** X3.  For every [BYTE] trigger value the scaled value lies in [0, 1],
    is 0 below 30, is 1 at 255 and never decreases with the raw value. *)
Theorem GamepadTrigger_range (v w : Z) :
  (0 <= v <= w)%Z -> (w <= 255)%Z ->
  0 <= GamepadTrigger v <= 1 /\
  GamepadTrigger v <= GamepadTrigger w /\
  ((v < 30)%Z -> GamepadTrigger v = 0) /\
  GamepadTrigger 255 = 1.
Proof.
  intros [H0 Hvw] Hw.
  assert (Rv : 0 <= IZR v <= 255) by (split; apply IZR_le; lia).
  assert (Rw : IZR v <= IZR w <= 255) by (split; apply IZR_le; lia).
  unfold GamepadTrigger.
  destruct (Z.ltb_spec v 30) as [Hv | Hv];
    destruct (Z.ltb_spec w 30) as [Hw' | Hw'];
    try lia; rewrite ?minus_IZR.
  - repeat split; try lra. cbn. lra.
  - assert (30 <= IZR w) by (apply IZR_le; exact Hw').
    repeat split; try lra. cbn. lra.
  - assert (30 <= IZR v) by (apply IZR_le; exact Hv).
    repeat split; try lra; try (intros; lia). cbn. lra.
Qed.

(** X3 for the raw values 100 and 200. *)
Lemma GamepadTrigger_range_witness : GamepadTrigger 100 <= GamepadTrigger 200.
Proof.
  apply (proj1 (proj2 (GamepadTrigger_range 100 200 ltac:(lia) ltac:(lia)))).
Defined.

(** ** Gamepad input *)

(** X4.  [OnGamepad] stores the sign-preserving squares of the left
    stick, [x |x|] sideways and [- y |y|] forward, with no vertical part,
    and twice the right stick (vertical axis inverted) as rotation rates;
    the stored movement vector is the zero vector exactly when both left
    stick values are 0. *)
Theorem OnGamepad_squares (padLx padLy padRx padRy : R) (a : OculusRoomTinyApp) :
  let b := OnGamepad padLx padLy padRx padRy a in
  GamepadMove b = Vector3f.mk (padLx * Rabs padLx) 0 (- (padLy * Rabs padLy)) /\
  GamepadRotate b = Vector3f.mk (2 * padRx) (- (2 * padRy)) 0 /\
  (Vector3f.LengthSq (GamepadMove b) = 0 <-> padLx = 0 /\ padLy = 0).
Proof.
  intros b.
  assert (Hm : GamepadMove b =
                 Vector3f.mk (padLx * Rabs padLx) 0 (- (padLy * Rabs padLy))).
  { subst b. unfold OnGamepad. cbn [GamepadMove set_GamepadRotate set_GamepadMove].
    f_equal.
    - destruct (Rlt_dec 0 padLx) as [H | H].
      + rewrite Rabs_pos_eq by lra. ring.
      + rewrite Rabs_left1 by lra. ring.
    - destruct (Rlt_dec 0 padLy) as [H | H].
      + rewrite Rabs_pos_eq by lra. ring.
      + rewrite Rabs_left1 by lra. ring. }
  split; [ exact Hm | ]. split.
  - subst b. unfold OnGamepad. cbn [GamepadRotate set_GamepadRotate].
    f_equal; ring.
  - rewrite Hm. unfold Vector3f.LengthSq. cbn [Vector3f.x Vector3f.y Vector3f.z].
    split.
    + intros H.
      assert (Hz : forall t, t * Rabs t = 0 -> t = 0).
      { intros t Ht. destruct (Rmult_integral _ _ Ht) as [E | E]; [ exact E | ].
        destruct (Req_dec t 0) as [E0 | E0]; [ exact E0 | ].
        exfalso. exact (Rabs_no_R0 t E0 E). }
      split; apply Hz; nra.
    + intros [-> ->]. rewrite Rabs_R0. ring.
Qed.

(** X5.  A frame without trackers, with every stick inside the dead
    zone, no movement key down and the pitch within its bound, leaves the
    camera pose as it was. *)
Theorem idle_input_keeps_pose
    (lx ly rx ry : Z) (inp : FrameInput) (a : OculusRoomTinyApp) :
  pSensor a = false -> tss_isStreaming a = false ->
  (Z.abs lx < 9000)%Z -> (Z.abs ly < 9000)%Z ->
  (Z.abs rx < 9000)%Z -> (Z.abs ry < 9000)%Z ->
  anyMoveKey a = false ->
  - maxPitch <= EyePitch a <= maxPitch ->
  pose (fst (step (Idle (Some (lx, ly, rx, ry)) inp) a)) = pose a.
Proof.
  intros Hp Hs Hlx Hly Hrx Hry Hk Hb. cbn [step].
  rewrite (GamepadStick_dead lx Hlx), (GamepadStick_dead ly Hly),
    (GamepadStick_dead rx Hrx), (GamepadStick_dead ry Hry).
  set (b := OnGamepad 0 0 0 0 a).
  assert (Bp : pSensor b = false) by exact Hp.
  assert (Bs : tss_isStreaming b = false) by exact Hs.
  assert (Bm : GamepadMove b = Vector3f.mk (0 * 0 * -1) 0 (0 * 0 * 1)).
  { subst b. unfold OnGamepad. cbn [GamepadMove set_GamepadRotate set_GamepadMove].
    destruct (Rlt_dec 0 0) as [H | H]; [ exfalso; lra | reflexivity ]. }
  assert (Br : GamepadRotate b = Vector3f.mk (2 * 0) (-2 * 0) 0) by reflexivity.
  assert (Eyaw : EyeYaw (fst (OnIdle inp b)) = EyeYaw a).
  { rewrite (proj1 (OnIdle_yaw inp b)). unfold trackedYaw.
    rewrite Bs, Bp, Br. cbn [Vector3f.x].
    change (EyeYaw b) with (EyeYaw a). ring. }
  assert (Epitch : EyePitch (fst (OnIdle inp b)) = EyePitch a).
  { rewrite (OnIdle_pitch_manual inp b Bp Bs), Br. cbn [Vector3f.y].
    rewrite clampPitch_inside; cbn [EyePitch set_EyePitch];
      change (EyePitch b) with (EyePitch a); [ ring | lra ]. }
  assert (Eroll : EyeRoll (fst (OnIdle inp b)) = EyeRoll a).
  { rewrite OnIdle_roll. unfold trackedRoll. rewrite Bs, Bp. reflexivity. }
  assert (Epos : EyePos (fst (OnIdle inp b)) = EyePos a).
  { rewrite OnIdle_EyePos. unfold movement.
    cbn [MoveForward MoveBack MoveLeft MoveRight GamepadMove set_EyeYaw].
    change (pressed (MoveForward b) || pressed (MoveBack b)
            || pressed (MoveLeft b) || pressed (MoveRight b))
      with (anyMoveKey a).
    rewrite Hk, Bm.
    destruct (Rlt_dec 0 _) as [H | H].
    - exfalso. unfold Vector3f.LengthSq in H.
      cbn [Vector3f.x Vector3f.y Vector3f.z] in H. lra.
    - reflexivity. }
  unfold pose. rewrite Epos, Eyaw, Epitch, Eroll. reflexivity.
Qed.

(** X5 on the first frame after a startup without trackers. *)
Lemma idle_input_keeps_pose_witness :
  pose (fst (step (Idle (Some (100, -200, 0, 8999)%Z)
                        (frameAt 1 0 0 (mkPacket 0 0 0 1)))
                  (started false false)))
  = pose (started false false).
Proof.
  pose proof maxPitch_pos as Hm.
  apply idle_input_keeps_pose; try reflexivity.
  cbn. lra.
Defined.

(** X4 for a centred left stick. *)
Lemma OnGamepad_squares_witness :
  Vector3f.LengthSq (GamepadMove (OnGamepad 0 0 1 1 (started false false))) = 0.
Proof.
  apply (proj2 (proj2 (OnGamepad_squares 0 0 1 1 (started false false)))).
  split; reflexivity.
Defined.

(** ** Movement keys *)

Lemma key_bit_range (m bit : Z) (down : bool) :
  (0 <= m <= 3)%Z -> bit = 1%Z \/ bit = 2%Z ->
  (0 <= key_bit m bit down <= 3)%Z /\
  ((m <= 1)%Z -> bit = 1%Z -> (key_bit m bit down <= 1)%Z).
Proof.
  intros Hm Hb.
  assert (Hc : m = 0%Z \/ m = 1%Z \/ m = 2%Z \/ m = 3%Z) by lia.
  destruct Hc as [-> | [-> | [-> | ->]]]; destruct Hb as [-> | ->];
    destruct down; cbn; split; try lia; intros; lia.
Qed.

(** The ranges of the four movement masks. *)
Lemma OnKey_masks (vk : Z) (down : bool) (a : OculusRoomTinyApp) :
  (0 <= MoveForward a <= 3)%Z /\ (0 <= MoveBack a <= 3)%Z /\
  (0 <= MoveLeft a <= 1)%Z /\ (0 <= MoveRight a <= 1)%Z ->
  (0 <= MoveForward (OnKey vk down a) <= 3)%Z /\
  (0 <= MoveBack (OnKey vk down a) <= 3)%Z /\
  (0 <= MoveLeft (OnKey vk down a) <= 1)%Z /\
  (0 <= MoveRight (OnKey vk down a) <= 1)%Z.
Proof.
  intros (Hf & Hb & Hl & Hr).
  assert (Kf1 := key_bit_range (MoveForward a) 1 down Hf (or_introl eq_refl)).
  assert (Kf2 := key_bit_range (MoveForward a) 2 down Hf (or_intror eq_refl)).
  assert (Kb1 := key_bit_range (MoveBack a) 1 down Hb (or_introl eq_refl)).
  assert (Kb2 := key_bit_range (MoveBack a) 2 down Hb (or_intror eq_refl)).
  assert (Kl := key_bit_range (MoveLeft a) 1 down
                  ltac:(lia) (or_introl eq_refl)).
  assert (Kr := key_bit_range (MoveRight a) 1 down
                  ltac:(lia) (or_introl eq_refl)).
  unfold OnKey.
  repeat match goal with
         | |- context [if ?c then _ else _] => destruct c
         end;
    cbn [MoveForward MoveBack MoveLeft MoveRight
         set_MoveForward set_MoveBack set_MoveLeft set_MoveRight set_Quit
         set_PostProcess set_SConfig_StereoMode set_SConfig_IPD
         set_ShiftDown set_ControlDown];
    repeat split; lia.
Qed.

Lemma step_masks (e : Event) (a : OculusRoomTinyApp) :
  (0 <= MoveForward a <= 3)%Z /\ (0 <= MoveBack a <= 3)%Z /\
  (0 <= MoveLeft a <= 1)%Z /\ (0 <= MoveRight a <= 1)%Z ->
  (0 <= MoveForward (fst (step e a)) <= 3)%Z /\
  (0 <= MoveBack (fst (step e a)) <= 3)%Z /\
  (0 <= MoveLeft (fst (step e a)) <= 1)%Z /\
  (0 <= MoveRight (fst (step e a)) <= 1)%Z.
Proof.
  intros H.
  destruct e as [dx dy | vk | vk | | | pad inp]; cbn [step ret fst].
  - unfold OnMouseMove. cbn [pSensor set_EyeYaw].
    destruct (negb (pSensor a)); [ rewrite clampPitch_only_EyePitch | ];
      exact H.
  - apply OnKey_masks, H.
  - apply OnKey_masks, H.
  - exact H.
  - exact H.
  - rewrite OnIdle_fst. unfold buildView.
    rewrite movement_only_EyePos, gamepadRotation_shape, tracked_normal.
    destruct pad as [[[[lx ly] rx] ry] | ]; exact H.
Qed.

(** X6.  Along every run of the main loop the forward and back masks
    stay within 0..3 (a bit for W or S and a bit for the arrow key) and
    the left and right masks within 0..1. *)
Theorem movement_masks_in_range
    (evs : list Event) (streaming sensor : bool) (now ipd : R) :
  (0 <= MoveForward (fst (Run evs (OnStartup streaming sensor now (construct ipd)))) <= 3)%Z /\
  (0 <= MoveBack (fst (Run evs (OnStartup streaming sensor now (construct ipd)))) <= 3)%Z /\
  (0 <= MoveLeft (fst (Run evs (OnStartup streaming sensor now (construct ipd)))) <= 1)%Z /\
  (0 <= MoveRight (fst (Run evs (OnStartup streaming sensor now (construct ipd)))) <= 1)%Z.
Proof.
  assert (H0 : (0 <= MoveForward (OnStartup streaming sensor now (construct ipd)) <= 3)%Z /\
               (0 <= MoveBack (OnStartup streaming sensor now (construct ipd)) <= 3)%Z /\
               (0 <= MoveLeft (OnStartup streaming sensor now (construct ipd)) <= 1)%Z /\
               (0 <= MoveRight (OnStartup streaming sensor now (construct ipd)) <= 1)%Z)
    by (cbn; lia).
  revert H0. generalize (OnStartup streaming sensor now (construct ipd)).
  induction evs as [ | e evs IH ]; intros a Ha; cbn [Run].
  - exact Ha.
  - destruct (Quit a); [ exact Ha | ].
    rewrite bind_fst. apply IH, step_masks, Ha.
Qed.

(** X7.  The two keys of an action hold it independently: with the
    forward mask in range, after W down, arrow-up down and W up the
    forward action is still held; W down followed by W up leaves the
    arrow-key bit as it was and the W bit clear; a key-up for a key that
    is not down changes nothing. *)
Theorem forward_keys_independent (a : OculusRoomTinyApp) :
  (0 <= MoveForward a <= 3)%Z ->
  pressed (MoveForward
             (OnKey (chr "W") false
                (OnKey VK_UP true (OnKey (chr "W") true a)))) = true /\
  MoveForward (OnKey (chr "W") false (OnKey (chr "W") true a))
    = Z.land (MoveForward a) 2 /\
  (MoveForward a = 0%Z -> OnKey (chr "W") false a = a).
Proof.
  intros Hm.
  assert (Hc : MoveForward a = 0%Z \/ MoveForward a = 1%Z \/
               MoveForward a = 2%Z \/ MoveForward a = 3%Z) by lia.
  unfold OnKey. cbn [Z.eqb chr N_of_ascii Z.of_N VK_UP VK_ESCAPE
                     Pos.eqb andb negb].
  cbn [MoveForward set_MoveForward].
  split; [ | split ].
  - destruct Hc as [-> | [-> | [-> | ->]]]; reflexivity.
  - destruct Hc as [-> | [-> | [-> | ->]]]; reflexivity.
  - intros H0. rewrite H0. destruct a. cbn in H0. subst. reflexivity.
Qed.

(** X7 from the state after startup, where no key is down. *)
Lemma forward_keys_independent_witness :
  pressed (MoveForward
             (OnKey (chr "W") false
                (OnKey VK_UP true (OnKey (chr "W") true (started false false)))))
  = true.
Proof.
  apply (proj1 (forward_keys_independent (started false false) ltac:(cbn; lia))).
Defined.

(** ** The main loop *)

Lemma bind_ret_l {A B} (a : A) (k : A -> Eff B) : bind (ret a) k = k a.
Proof. unfold bind, ret. destruct (k a). reflexivity. Qed.

Lemma bind_assoc {A B C} (m : Eff A) (f : A -> Eff B) (g : B -> Eff C) :
  bind (bind m f) g = bind m (fun x => bind (f x) g).
Proof.
  unfold bind. destruct m as [a t1]. destruct (f a) as [b t2].
  destruct (g b) as [c t3]. rewrite app_assoc. reflexivity.
Qed.

(** Once [Quit] is set the loop takes no further turn. *)
Lemma Run_quit (evs : list Event) (a : OculusRoomTinyApp) :
  Quit a = true -> Run evs a = ret a.
Proof. intros H. destruct evs; cbn [Run]; [ | rewrite H ]; reflexivity. Qed.

(** The loop over a concatenation of turns. *)
Lemma Run_concat (evs1 evs2 : list Event) (a : OculusRoomTinyApp) :
  Run (evs1 ++ evs2) a = (a1 <- Run evs1 a ;; Run evs2 a1).
Proof.
  revert a. induction evs1 as [ | e evs1 IH ]; intros a.
  - cbn [app Run]. rewrite bind_ret_l. reflexivity.
  - cbn [app Run]. destruct (Quit a) eqn:Hq.
    + rewrite bind_ret_l, (Run_quit evs2 a Hq). reflexivity.
    + unfold bind at 1 3. destruct (step e a) as [a' t]. rewrite IH.
      unfold bind. destruct (Run evs1 a') as [b t2].
      destruct (Run evs2 b) as [c t3]. rewrite app_assoc. reflexivity.
Qed.

(** X9.  A close message, the release of Escape, and Q pressed while
    Control is held each end the loop: whatever turns come after them
    have no effect on the final state or on the trace. *)
Theorem quit_ends_the_run (pre post : list Event) (a : OculusRoomTinyApp) :
  Run (pre ++ Close :: post) a = Run (pre ++ [Close]) a /\
  Run (pre ++ KeyUp VK_ESCAPE :: post) a = Run (pre ++ [KeyUp VK_ESCAPE]) a /\
  Run (pre ++ KeyDown VK_CONTROL :: KeyDown (chr "Q") :: post) a
  = Run (pre ++ [KeyDown VK_CONTROL; KeyDown (chr "Q")]) a.
Proof.
  assert (Hone : forall e, (forall b, Quit (fst (step e b)) = true) ->
            forall b, Run (e :: post) b = Run [e] b).
  { intros e He b. cbn [Run]. destruct (Quit b); [ reflexivity | ].
    specialize (He b). unfold bind.
    destruct (step e b) as [b' t]. cbn [fst] in He.
    rewrite (Run_quit post b' He). reflexivity. }
  assert (Hpre : forall l1 l2, (forall b, Run l1 b = Run l2 b) ->
            Run (pre ++ l1) a = Run (pre ++ l2) a).
  { intros l1 l2 H. rewrite !Run_concat. unfold bind.
    destruct (Run pre a) as [b t]. rewrite H. reflexivity. }
  split; [ | split ]; apply Hpre; intros b.
  - apply (Hone Close). intros c. reflexivity.
  - apply (Hone (KeyUp VK_ESCAPE)). intros c. reflexivity.
  - cbn [Run]. destruct (Quit b); [ reflexivity | ].
    unfold bind at 1 3. cbn [step ret].
    set (c := OnKey VK_CONTROL true b).
    assert (Hc : ControlDown c = true) by reflexivity.
    destruct (Quit c); [ reflexivity | ].
    assert (Hq : Quit (OnKey (chr "Q") true c) = true).
    { unfold OnKey. cbn [Z.eqb chr N_of_ascii Z.of_N Pos.eqb andb].
      rewrite Hc. reflexivity. }
    unfold bind. cbn [step ret].
    rewrite (Run_quit post _ Hq). reflexivity.
Qed.

(** ** Rendering *)

Lemma OnIdle_render_config (inp : FrameInput) (a : OculusRoomTinyApp) :
  SConfig_StereoMode (fst (OnIdle inp a)) = SConfig_StereoMode a /\
  PostProcess (fst (OnIdle inp a)) = PostProcess a.
Proof.
  rewrite OnIdle_fst. unfold buildView.
  rewrite movement_only_EyePos, gamepadRotation_shape, tracked_normal.
  split; reflexivity.
Qed.

Lemma renders_app (t1 t2 : list Effect) :
  renders (t1 ++ t2) = renders t1 ++ renders t2.
Proof.
  induction t1 as [ | e t1 IH ]; [ reflexivity | ].
  destruct e; cbn [app renders]; rewrite IH; reflexivity.
Qed.

(** The trackers' blocks render nothing. *)
Lemma threeSpaceStage_renders (inp : FrameInput) (a : OculusRoomTinyApp) :
  renders (snd (threeSpaceStage inp a)) = [] /\
  Forall (fun e => isTrackerEffect e = true) (snd (threeSpaceStage inp a)).
Proof.
  destruct (tss_isStreaming a) eqn:Hs.
  - rewrite (threeSpaceStage_streaming inp a Hs). cbn [snd].
    rewrite renders_app, Forall_app. unfold errorLog.
    destruct (tss_s_cases (tss_data inp)) as [H | [H | H]];
      [ rewrite (tss_rotator_inside _ H)
      | rewrite (tss_rotator_north _ H)
      | rewrite (tss_rotator_south _ H) ];
      destruct (negb (tss_error inp =? 0)%Z); cbn [snd renders app];
      repeat split; repeat constructor.
  - rewrite (threeSpaceStage_silent inp a Hs). split; constructor.
Qed.

(** The scene passes of a frame. *)
Lemma frame_render_passes_aux (inp : FrameInput) (a : OculusRoomTinyApp) :
  renders (snd (OnIdle inp a)) =
    map (fun eye => (PostProcess a, eye, View (fst (OnIdle inp a))))
        (eyesOf (SConfig_StereoMode a)).
Proof.
  destruct (OnIdle_render_config inp a) as [Em Ep].
  rewrite OnIdle_snd, !renders_app.
  rewrite (proj1 (threeSpaceStage_renders inp _)).
  unfold renderPasses. rewrite Em.
  destruct (SConfig_StereoMode a); cbn; rewrite Ep; reflexivity.
Qed.

(** X10.  Every frame renders one scene pass per eye of the stereo mode
    in force, Left before Right in stereo and Center alone otherwise,
    each with the post-process setting in force and the view built in
    this frame; the frame's trace ends with the present and the GPU
    flush, and neither the stereo mode nor the post-process setting is
    changed by the frame. *)
Theorem frame_render_passes (inp : FrameInput) (a : OculusRoomTinyApp) :
  renders (snd (OnIdle inp a)) =
    map (fun eye => (PostProcess a, eye, View (fst (OnIdle inp a))))
        (eyesOf (SConfig_StereoMode a)) /\
  (exists pre, snd (OnIdle inp a) = pre ++ [Present; ForceFlushGPU]) /\
  SConfig_StereoMode (fst (OnIdle inp a)) = SConfig_StereoMode a /\
  PostProcess (fst (OnIdle inp a)) = PostProcess a.
Proof.
  destruct (OnIdle_render_config inp a) as [Em Ep].
  split; [ | split; [ | split; assumption ] ].
  - apply frame_render_passes_aux.
  - rewrite OnIdle_snd.
    exists (snd (threeSpaceStage inp
                   (sensorFusionStage inp (set_LastUpdate (curtime inp) a)))
            ++ snd (renderPasses (fst (OnIdle inp a)))).
    rewrite app_assoc. reflexivity.
Qed.

(** X11.  F1 selects mono rendering without distortion: whether the key
    goes down or up, the next frame renders the Center eye alone with
    post-processing off.  F2 and F3 select stereo, without and with
    distortion: the next frame renders Left and then Right. *)
Theorem function_keys_select_rendering
    (down : bool) (inp : FrameInput) (a : OculusRoomTinyApp) :
  map (fun r => (fst (fst r), snd (fst r)))
      (renders (snd (OnIdle inp (OnKey VK_F1 down a))))
    = [(PostProcess_None, StereoEye_Center)] /\
  map (fun r => (fst (fst r), snd (fst r)))
      (renders (snd (OnIdle inp (OnKey VK_F2 down a))))
    = [(PostProcess_None, StereoEye_Left); (PostProcess_None, StereoEye_Right)] /\
  map (fun r => (fst (fst r), snd (fst r)))
      (renders (snd (OnIdle inp (OnKey VK_F3 down a))))
    = [(PostProcess_Distortion, StereoEye_Left);
       (PostProcess_Distortion, StereoEye_Right)].
Proof.
  repeat split; rewrite frame_render_passes_aux; reflexivity.
Qed.

(** ** Starting and stopping the stream *)

(** X13.  The start of the stream in [OnStartup], entered with the
    stream off: between 3 and 9 API calls are made, whatever the return
    codes; when the stream is reported started the last three calls are
    the timing, slots and start calls of one pass and each returned 0;
    exactly one line is logged, the success line when the stream started
    and the failure line otherwise. *)
Theorem startStreaming_bounded (resp : nat -> Z) :
  let '(streaming, calls, logged) := startStreaming false resp in
  (3 <= List.length calls <= 9)%nat /\
  (streaming = true ->
   exists pre,
     calls = pre ++ [tss_setStreamingTiming; tss_setStreamingSlots; tss_startStreaming] /\
     resp (List.length pre) = 0%Z /\
     resp (List.length pre + 1)%nat = 0%Z /\
     resp (List.length pre + 2)%nat = 0%Z) /\
  logged =
    [LogText ((if streaming then "TSS: Start streaming success!"
               else "TSS: Start streaming failed!") ++ newline)].
Proof.
  unfold startStreaming, startLoop, startAttempt. cbn [negb].
  repeat match goal with
         | |- context [(?r =? 0)%Z] =>
             let E := fresh "E" in
             destruct (Z.eqb_spec r 0) as [E | E];
             cbn [List.length app Nat.add negb]
         end;
    (split; [ cbn; lia | split; [ | reflexivity ] ]);
    try (intros Hf; discriminate Hf); intros _.
  all: match goal with
       | |- exists pre, ?l = _ /\ _ =>
           first
             [ exists (@nil TssCall); cbn; repeat split; assumption
             | exists [tss_setStreamingTiming]; cbn; repeat split; assumption
             | exists [tss_setStreamingTiming; tss_setStreamingSlots];
               cbn; repeat split; assumption
             | exists (firstn (List.length l - 3) l);
               cbn; repeat split; assumption ]
       end.
Qed.

(** X13 when every call returns 0: the first pass starts the stream. *)
Lemma startStreaming_bounded_witness :
  exists pre,
    [tss_setStreamingTiming; tss_setStreamingSlots; tss_startStreaming]
    = pre ++ [tss_setStreamingTiming; tss_setStreamingSlots; tss_startStreaming] /\
    0%Z = 0%Z /\ 0%Z = 0%Z /\ 0%Z = 0%Z.
Proof.
  pose proof (startStreaming_bounded (fun _ => 0%Z)) as H.
  cbn in H. destruct H as (_ & H & _).
  exact (H eq_refl).
Defined.

(** X14.  The stop of the stream in [WinMain].  With the stream off
    nothing is called and nothing is logged.  With the stream on, at most
    three stop calls are made, the loop ends at the first call that
    returns 0, the stream stays on exactly when all three calls fail, and
    exactly one line is logged: the success line or the failure line. *)
Theorem stopStreaming_bounded (isStreaming : bool) (resp : nat -> Z) :
  let '(streaming, calls, logged) := stopStreaming isStreaming resp in
  (isStreaming = false -> streaming = false /\ calls = [] /\ logged = []) /\
  (isStreaming = true ->
   (streaming = true <-> resp 0%nat <> 0%Z /\ resp 1%nat <> 0%Z /\ resp 2%nat <> 0%Z) /\
   (1 <= List.length calls <= 3)%nat /\
   Forall (fun c => c = tss_stopStreaming) calls /\
   (streaming = false -> resp (List.length calls - 1)%nat = 0%Z) /\
   (forall k, (k < List.length calls - 1)%nat -> resp k <> 0%Z) /\
   logged =
     [LogText ((if streaming then "TSS: Stop streaming failed!"
                else "TSS: Stop streaming success!") ++ newline)]).
Proof.
  unfold stopStreaming, stopLoop. destruct isStreaming.
  - destruct (Z.eqb_spec (resp 0%nat) 0) as [E0 | E0];
      [ | destruct (Z.eqb_spec (resp 1%nat) 0) as [E1 | E1];
          [ | destruct (Z.eqb_spec (resp 2%nat) 0) as [E2 | E2] ] ];
      cbn [negb List.length app Nat.sub];
      (split; [ intros Hf; discriminate Hf | intros _ ]);
      (split; [ split; [ intros Hf; try discriminate Hf; tauto
                       | intros (N0 & N1 & N2); try reflexivity; contradiction ] | ]);
      (split; [ cbn; lia | ]);
      (split; [ repeat constructor | ]);
      (split; [ intros Hf; try discriminate Hf; assumption | ]);
      (split; [ | reflexivity ]);
      intros k Hk;
      repeat (destruct k as [ | k ]; [ assumption | ]); cbn in Hk; lia.
  - cbn. split; [ intros _; repeat split | intros Hf; discriminate Hf ].
Qed.

(** X14 when the second stop call succeeds: two calls are made. *)
Lemma stopStreaming_bounded_witness :
  (1 <= List.length
          (snd (fst (stopStreaming true (fun n => if Nat.eqb n 1 then 0%Z else 1%Z))))
   <= 3)%nat.
Proof.
  pose proof (stopStreaming_bounded true
                (fun n => if Nat.eqb n 1 then 0%Z else 1%Z)) as H.
  cbn in H. exact (proj1 (proj2 (proj2 H eq_refl))).
Defined.

(** ** Mouse and manual pitch *)

(** The pitch after the two clamping statements. *)
Lemma clampPitch_value (a : OculusRoomTinyApp) :
  EyePitch (clampPitch a) = Rmax (- maxPitch) (Rmin maxPitch (EyePitch a)).
Proof.
  pose proof maxPitch_pos as Hm. unfold clampPitch, Rmax, Rmin.
  destruct (Rlt_dec maxPitch (EyePitch a)) as [H1 | H1];
    destruct (Rle_dec maxPitch (EyePitch a)) as [H2 | H2];
    cbn [EyePitch set_EyePitch];
    repeat match goal with
           | |- context [Rlt_dec ?u ?v] => destruct (Rlt_dec u v)
           | |- context [Rle_dec ?u ?v] => destruct (Rle_dec u v)
           end; cbn [EyePitch set_EyePitch]; lra.
Qed.

(** What a mouse motion does to the yaw and what it keeps. *)
Lemma mouse_yaw_step (x y : Z) (a : OculusRoomTinyApp) :
  EyeYaw (OnMouseMove x y a) = EyeYaw a - IZR x / 360 /\
  LastSensorYaw (OnMouseMove x y a) = LastSensorYaw a /\
  GamepadRotate (OnMouseMove x y a) = GamepadRotate a.
Proof.
  unfold OnMouseMove, Sensitivity. cbn [pSensor set_EyeYaw].
  destruct (negb (pSensor a)).
  - rewrite clampPitch_only_EyePitch.
    cbn [EyeYaw LastSensorYaw GamepadRotate set_EyePitch set_EyeYaw].
    repeat split. lra.
  - cbn [EyeYaw LastSensorYaw GamepadRotate set_EyeYaw]. repeat split. lra.
Qed.

(** X15.  The mouse turns the yaw by [-dx/360] per motion whatever
    trackers are connected, so two motions add up; it never touches the
    position, the roll or the stored tracker yaw.  With any tracker
    connected, the pitch after the next frame is the same whether or not
    a mouse motion came before that frame. *)
Theorem mouse_yaw_adds_up (x1 y1 x2 y2 : Z) (inp : FrameInput) (a : OculusRoomTinyApp) :
  EyeYaw (OnMouseMove x2 y2 (OnMouseMove x1 y1 a))
    = EyeYaw a - IZR (x1 + x2) / 360 /\
  EyePos (OnMouseMove x1 y1 a) = EyePos a /\
  EyeRoll (OnMouseMove x1 y1 a) = EyeRoll a /\
  LastSensorYaw (OnMouseMove x1 y1 a) = LastSensorYaw a /\
  (pSensor a = true \/ tss_isStreaming a = true ->
   EyePitch (fst (OnIdle inp (OnMouseMove x1 y1 a)))
   = EyePitch (fst (OnIdle inp a))).
Proof.
  assert (Hy : forall x y b, EyeYaw (OnMouseMove x y b) = EyeYaw b - IZR x / 360).
  { intros x y b. unfold OnMouseMove, Sensitivity. cbn [pSensor set_EyeYaw].
    destruct (negb (pSensor b)).
    - rewrite clampPitch_only_EyePitch. cbn [EyeYaw set_EyePitch set_EyeYaw]. lra.
    - cbn [EyeYaw set_EyeYaw]. lra. }
  destruct (OnMouseMove_frame x1 y1 a) as (F1 & F2 & F3 & F4 & _).
  split; [ rewrite !Hy, plus_IZR; lra | ].
  split; [ exact F4 | ]. split; [ exact F3 | ].
  split; [ apply (OnMouseMove_tracker_fields x1 y1 a) | ].
  intros Ht.
  rewrite !OnIdle_pitch_tracked by (try rewrite F1, F2; exact Ht).
  unfold trackedPitch. rewrite F1, F2.
  destruct (tss_isStreaming a); [ reflexivity | ].
  destruct (pSensor a); [ reflexivity | ].
  destruct Ht as [Ht | Ht]; discriminate Ht.
Qed.

(** X15 with the ThreeSpace tracker alone, where the handler does move
    the pitch. *)
Lemma mouse_yaw_adds_up_witness :
  EyePitch (fst (OnIdle (frameAt 1 0 0 (mkPacket 0 0 0 1))
                   (OnMouseMove 5 36 (started true false))))
  = EyePitch (fst (OnIdle (frameAt 1 0 0 (mkPacket 0 0 0 1)) (started true false))).
Proof.
  apply (proj2 (proj2 (proj2 (proj2
           (mouse_yaw_adds_up 5 36 0 0 (frameAt 1 0 0 (mkPacket 0 0 0 1))
              (started true false)))))).
  right. reflexivity.
Defined.

(** X16.  Without trackers the manual pitch saturates: after a mouse
    motion the pitch is the old pitch minus [dy/360], and after a frame
    the old pitch minus the gamepad rate times [dt], each cut off at
    [- maxPitch] and [maxPitch]. *)
Theorem manual_pitch_saturates
    (x y : Z) (inp : FrameInput) (a : OculusRoomTinyApp) :
  pSensor a = false -> tss_isStreaming a = false ->
  EyePitch (OnMouseMove x y a)
    = Rmax (- maxPitch) (Rmin maxPitch (EyePitch a - IZR y / 360)) /\
  EyePitch (fst (OnIdle inp a))
    = Rmax (- maxPitch)
        (Rmin maxPitch
           (EyePitch a
            - Vector3f.y (GamepadRotate a) * (curtime inp - LastUpdate a))).
Proof.
  intros Hp Hs. split.
  - unfold OnMouseMove, Sensitivity. cbn [pSensor set_EyeYaw].
    rewrite Hp. cbn [negb]. rewrite clampPitch_value.
    cbn [EyePitch set_EyePitch set_EyeYaw].
    replace (1 * IZR y / 360) with (IZR y / 360) by lra. reflexivity.
  - rewrite (OnIdle_pitch_manual inp a Hp Hs), clampPitch_value. reflexivity.
Qed.

(** X16 for a mouse motion that overshoots the upper bound. *)
Lemma manual_pitch_saturates_witness :
  EyePitch (OnMouseMove 0 (-3600) (started false false))
  = Rmax (- maxPitch) (Rmin maxPitch (EyePitch (started false false) - IZR (-3600) / 360)).
Proof.
  apply (proj1 (manual_pitch_saturates 0 (-3600)
                  (frameAt 1 0 0 (mkPacket 0 0 0 1)) (started false false)
                  eq_refl eq_refl)).
Defined.

(** ** Movement *)

Lemma sub_self (p : Vector3f) : Vector3f.sub p p = Vector3f.zero.
Proof. unfold Vector3f.sub, Vector3f.zero. f_equal; ring. Qed.

(** X17.  The gamepad moves the eye only while no movement key is down:
    then the frame's displacement has length [MoveSpeed] x |dt| x the
    length of the stored stick vector, with no boost from Shift, and is
    the zero vector when the stick vector is; with a key down the
    displacement is the same whatever the stick vector is. *)
Theorem gamepad_movement (dt : R) (g : Vector3f) (a : OculusRoomTinyApp) :
  (anyMoveKey a = false ->
   Vector3f.Length (displacement dt a)
     = MoveSpeed * Rabs dt * Vector3f.Length (GamepadMove a) /\
   (Vector3f.LengthSq (GamepadMove a) = 0 -> displacement dt a = Vector3f.zero)) /\
  (anyMoveKey a = true ->
   displacement dt (set_GamepadMove g a) = displacement dt a).
Proof.
  split.
  - intros Hk.
    assert (Hm : movement dt a =
              if Rlt_dec 0 (Vector3f.LengthSq (GamepadMove a))
              then set_EyePos (Vector3f.add (EyePos a) (gamepadStep dt a)) a
              else a).
    { unfold movement. unfold anyMoveKey in Hk. rewrite Hk. reflexivity. }
    unfold displacement. rewrite Hm.
    destruct (Rlt_dec 0 (Vector3f.LengthSq (GamepadMove a))) as [Hg | Hg].
    + cbn [EyePos set_EyePos]. rewrite sub_add_cancel. split.
      * unfold gamepadStep. rewrite Length_scale.
        unfold Vector3f.Length at 1. rewrite LengthSq_RotationY.
        fold (Vector3f.Length (GamepadMove a)).
        rewrite Rabs_mult, (Rabs_pos_eq MoveSpeed) by (unfold MoveSpeed; lra).
        ring.
      * intros H0. exfalso. lra.
    + pose proof (LengthSq_nonneg (GamepadMove a)) as Hn.
      assert (H0 : Vector3f.LengthSq (GamepadMove a) = 0) by lra.
      rewrite sub_self. split.
      * unfold Vector3f.Length. rewrite H0.
        unfold Vector3f.LengthSq, Vector3f.zero. cbn.
        replace (0 * 0 + 0 * 0 + 0 * 0) with 0 by ring.
        rewrite sqrt_0. ring.
      * intros _. reflexivity.
  - intros Hk.
    assert (Hk' : anyMoveKey (set_GamepadMove g a) = true) by exact Hk.
    rewrite (displacement_keyboard dt _ Hk'), (displacement_keyboard dt a Hk).
    reflexivity.
Qed.

(** X17 with the left stick pushed fully forward, Shift held. *)
Lemma gamepad_movement_witness :
  Vector3f.Length
    (displacement 0.5
       (set_ShiftDown true (OnGamepad 0 1 0 0 (started false false))))
  = MoveSpeed * Rabs 0.5
    * Vector3f.Length
        (GamepadMove (set_ShiftDown true (OnGamepad 0 1 0 0 (started false false)))).
Proof.
  apply (proj1 (proj1 (gamepad_movement 0.5 Vector3f.zero
                         (set_ShiftDown true (OnGamepad 0 1 0 0 (started false false))))
                 eq_refl)).
Defined.

Lemma OnKey_W (down : bool) (a : OculusRoomTinyApp) :
  OnKey (chr "W") down a = set_MoveForward (key_bit (MoveForward a) 1 down) a.
Proof. reflexivity. Qed.

Lemma OnKey_S (down : bool) (a : OculusRoomTinyApp) :
  OnKey (chr "S") down a = set_MoveBack (key_bit (MoveBack a) 1 down) a.
Proof. reflexivity. Qed.

Lemma Normalize_axis (v : Vector3f) :
  Vector3f.LengthSq v = 1 -> Vector3f.Normalize v = v.
Proof.
  intros H. unfold Vector3f.Normalize, Vector3f.div, Vector3f.Length.
  rewrite H, sqrt_1. destruct v as [vx vy vz].
  unfold Vector3f.scale. cbn. f_equal; field.
Qed.

(** X18.  Walking back undoes walking forward: with W alone held for a
    frame, then W released and S pressed and held for a frame of the same
    length at the same yaw and Shift state, the eye is back where it
    started. *)
Theorem back_undoes_forward (dt : R) (a : OculusRoomTinyApp) :
  MoveForward a = 1%Z -> MoveBack a = 0%Z ->
  MoveLeft a = 0%Z -> MoveRight a = 0%Z ->
  EyePos (movement dt
            (OnKey (chr "S") true (OnKey (chr "W") false (movement dt a))))
  = EyePos a.
Proof.
  intros Hf Hb Hl Hr.
  assert (Nf : Vector3f.Normalize ForwardVector = ForwardVector)
    by (apply Normalize_axis; unfold Vector3f.LengthSq, ForwardVector; cbn; ring).
  assert (Nb : Vector3f.Normalize (Vector3f.neg ForwardVector)
               = Vector3f.neg ForwardVector)
    by (apply Normalize_axis; unfold Vector3f.LengthSq, ForwardVector; cbn; ring).
  assert (M1 : movement dt a =
                 set_EyePos (Vector3f.add (EyePos a) (keyboardStep dt a)) a).
  { unfold movement. rewrite Hf. reflexivity. }
  rewrite M1.
  set (a1 := set_EyePos _ a).
  rewrite (OnKey_W false a1), (OnKey_S true).
  set (b := set_MoveBack _ _).
  assert (Bf : MoveForward b = 0%Z).
  { subst b a1. cbn [MoveForward set_MoveForward set_MoveBack set_EyePos].
    rewrite Hf. reflexivity. }
  assert (Bb : MoveBack b = 1%Z).
  { subst b a1. cbn [MoveBack set_MoveForward set_MoveBack set_EyePos].
    rewrite Hb. reflexivity. }
  assert (Bo : MoveLeft b = 0%Z /\ MoveRight b = 0%Z /\ EyeYaw b = EyeYaw a /\
               ShiftDown b = ShiftDown a /\ EyePos b = EyePos a1).
  { subst b a1. repeat split; assumption. }
  destruct Bo as (Bl & Br & By & Bs & Bp).
  unfold movement. rewrite Bf, Bb. cbn [pressed Z.eqb negb orb].
  cbn [EyePos set_EyePos]. rewrite Bp. subst a1. cbn [EyePos set_EyePos].
  unfold keyboardStep, localMove.
  rewrite Bf, Bb, Bl, Br, By, Bs, Hf, Hb, Hl, Hr.
  cbn [pressed Z.eqb negb]. rewrite Nf, Nb.
  destruct (EyePos a) as [px py pz].
  unfold Matrix4f.Transform, Matrix4f.RotationY, ForwardVector,
    Vector3f.neg, Vector3f.add, Vector3f.scale.
  cbn. f_equal; ring.
Qed.

(** X18 from the state after startup with W held, for half a second. *)
Lemma back_undoes_forward_witness :
  EyePos (movement 0.5
            (OnKey (chr "S") true
               (OnKey (chr "W") false
                  (movement 0.5 (OnKey (chr "W") true (started false false))))))
  = EyePos (OnKey (chr "W") true (started false false)).
Proof.
  apply (back_undoes_forward 0.5 (OnKey (chr "W") true (started false false)));
    reflexivity.
Defined.

(** X19.  The yaw does not depend on how time is cut into frames: after
    two frames in a row the yaw is the initial yaw, plus the change of the
    tracked yaw up to the second frame, minus the gamepad rate times the
    time from the last update to the second frame; the time of the first
    frame does not enter. *)
Theorem yaw_frame_split (i1 i2 : FrameInput) (a : OculusRoomTinyApp) :
  EyeYaw (fst (OnIdle i2 (fst (OnIdle i1 a))))
  = EyeYaw a
    + (trackedYaw i2 (fst (OnIdle i1 a)) - LastSensorYaw a)
    - Vector3f.x (GamepadRotate a) * (curtime i2 - LastUpdate a).
Proof.
  destruct (OnIdle_yaw i1 a) as [Y1 L1].
  destruct (OnIdle_yaw i2 (fst (OnIdle i1 a))) as [Y2 _].
  destruct (OnIdle_frame i1 a) as (_ & _ & G & _ & T).
  rewrite Y2, Y1, L1, G, T. ring.
Qed.

(** ** The rotation of the pose *)

Lemma dot_RotationX (t : R) (u v : Vector3f) :
  dot (Matrix4f.Transform (Matrix4f.RotationX t) u)
      (Matrix4f.Transform (Matrix4f.RotationX t) v) = dot u v.
Proof.
  pose proof (sin2_cos2 t) as H. unfold Rsqr in H.
  unfold dot, Matrix4f.Transform, Matrix4f.RotationX. cbn.
  transitivity
    (Vector3f.x u * Vector3f.x v
     + (sin t * sin t + cos t * cos t)
       * (Vector3f.y u * Vector3f.y v + Vector3f.z u * Vector3f.z v));
    [ ring | rewrite H; ring ].
Qed.

Lemma dot_RotationY (t : R) (u v : Vector3f) :
  dot (Matrix4f.Transform (Matrix4f.RotationY t) u)
      (Matrix4f.Transform (Matrix4f.RotationY t) v) = dot u v.
Proof.
  pose proof (sin2_cos2 t) as H. unfold Rsqr in H.
  unfold dot, Matrix4f.Transform, Matrix4f.RotationY. cbn.
  transitivity
    (Vector3f.y u * Vector3f.y v
     + (sin t * sin t + cos t * cos t)
       * (Vector3f.x u * Vector3f.x v + Vector3f.z u * Vector3f.z v));
    [ ring | rewrite H; ring ].
Qed.

Lemma dot_RotationZ (t : R) (u v : Vector3f) :
  dot (Matrix4f.Transform (Matrix4f.RotationZ t) u)
      (Matrix4f.Transform (Matrix4f.RotationZ t) v) = dot u v.
Proof.
  pose proof (sin2_cos2 t) as H. unfold Rsqr in H.
  unfold dot, Matrix4f.Transform, Matrix4f.RotationZ. cbn.
  transitivity
    (Vector3f.z u * Vector3f.z v
     + (sin t * sin t + cos t * cos t)
       * (Vector3f.x u * Vector3f.x v + Vector3f.y u * Vector3f.y v));
    [ ring | rewrite H; ring ].
Qed.

(** The product matrix acts as roll first, then pitch, then yaw. *)
Lemma rollPitchYaw_Transform (a : OculusRoomTinyApp) (v : Vector3f) :
  Matrix4f.Transform (rollPitchYaw a) v =
    Matrix4f.Transform (Matrix4f.RotationY (EyeYaw a))
      (Matrix4f.Transform (Matrix4f.RotationX (EyePitch a))
         (Matrix4f.Transform (Matrix4f.RotationZ (EyeRoll a)) v)).
Proof.
  unfold rollPitchYaw, Matrix4f.Transform, Matrix4f.mul,
    Matrix4f.RotationX, Matrix4f.RotationY, Matrix4f.RotationZ.
  cbn. f_equal; ring.
Qed.

Lemma dot_rollPitchYaw (a : OculusRoomTinyApp) (u v : Vector3f) :
  dot (Matrix4f.Transform (rollPitchYaw a) u)
      (Matrix4f.Transform (rollPitchYaw a) v) = dot u v.
Proof.
  rewrite !rollPitchYaw_Transform, dot_RotationY, dot_RotationX, dot_RotationZ.
  reflexivity.
Qed.

(** X20.  Whatever the yaw, pitch and roll, the view built by a frame
    looks from the eye towards a point at distance 1 from it, with an up
    vector of length 1 at right angles to the viewing direction: the
    product of the three rotations keeps scalar products. *)
Theorem view_basis_orthonormal (a : OculusRoomTinyApp) :
  (forall u v,
     dot (Matrix4f.Transform (rollPitchYaw a) u)
         (Matrix4f.Transform (rollPitchYaw a) v) = dot u v) /\
  exists eye target up,
    View (buildView a) = LookAtRH eye target up /\
    eye = shiftedEyePos a /\
    dot (Vector3f.sub target eye) (Vector3f.sub target eye) = 1 /\
    dot up up = 1 /\
    dot up (Vector3f.sub target eye) = 0.
Proof.
  split; [ apply dot_rollPitchYaw | ].
  exists (shiftedEyePos a),
    (Vector3f.add (shiftedEyePos a)
       (Matrix4f.Transform (rollPitchYaw a) ForwardVector)),
    (Matrix4f.Transform (rollPitchYaw a) UpVector).
  assert (Hs : forall p k, Vector3f.sub (Vector3f.add p k) p = k)
    by (intros; apply sub_add_cancel).
  rewrite Hs, !dot_rollPitchYaw.
  repeat split; unfold dot, ForwardVector, UpVector; cbn; ring.
Qed.

(** X21.  The head model keeps the eye at a fixed distance from the base
    of the head, the point 0.15 below [EyePos]: the squared distance is
    0.15^2 + 0.09^2 for every yaw, pitch and roll. *)
Theorem head_model_fixed_radius (a : OculusRoomTinyApp) :
  Vector3f.LengthSq
    (Vector3f.sub (shiftedEyePos a)
       (Vector3f.sub (EyePos a) (Vector3f.mk 0 headBaseToEyeHeight 0)))
  = 0.15 * 0.15 + 0.09 * 0.09.
Proof.
  assert (H : Vector3f.sub (shiftedEyePos a)
                (Vector3f.sub (EyePos a) (Vector3f.mk 0 headBaseToEyeHeight 0))
              = Matrix4f.Transform (rollPitchYaw a) eyeCenterInHeadFrame).
  { unfold shiftedEyePos, Vector3f.sub, Vector3f.add, eyeCenterInHeadFrame.
    cbn [Vector3f.x Vector3f.y Vector3f.z].
    destruct (Matrix4f.Transform (rollPitchYaw a)
                (Vector3f.mk 0 headBaseToEyeHeight (- headBaseToEyeProtrusion)))
      as [tx ty tz].
    cbn [Vector3f.x Vector3f.y Vector3f.z]. f_equal; ring. }
  rewrite H.
  change (Vector3f.LengthSq (Matrix4f.Transform (rollPitchYaw a) eyeCenterInHeadFrame))
    with (dot (Matrix4f.Transform (rollPitchYaw a) eyeCenterInHeadFrame)
              (Matrix4f.Transform (rollPitchYaw a) eyeCenterInHeadFrame)).
  rewrite dot_rollPitchYaw.
  unfold dot, eyeCenterInHeadFrame, headBaseToEyeHeight, headBaseToEyeProtrusion.
  cbn. lra.
Qed.

(** ** Ranges of the decomposed angles *)




(** ** The camera yaw follows the tracker *)

Lemma OnKey_yaw_fields (vk : Z) (down : bool) (a : OculusRoomTinyApp) :
  EyeYaw (OnKey vk down a) = EyeYaw a /\
  GamepadRotate (OnKey vk down a) = GamepadRotate a.
Proof.
  unfold OnKey.
  repeat match goal with
         | |- context [if ?c then _ else _] => destruct c
         end; split; reflexivity.
Qed.

(** X23.  Along a run in which no mouse motion has a sideways part and
    the right stick stays inside the dead zone sideways, the camera yaw is
    always the initial yaw plus the yaw last read from the tracker (0
    before the first reading): tracking alone never shifts the offset
    between the two. *)
Theorem yaw_follows_tracker
    (evs : list Event) (streaming sensor : bool) (now ipd : R) :
  Forall yawNeutral evs ->
  EyeYaw (fst (Run evs (OnStartup streaming sensor now (construct ipd))))
  = YawInitial
    + LastSensorYaw (fst (Run evs (OnStartup streaming sensor now (construct ipd)))).
Proof.
  intros Hn.
  assert (H0 : EyeYaw (OnStartup streaming sensor now (construct ipd))
               = YawInitial + LastSensorYaw (OnStartup streaming sensor now (construct ipd))
               /\ Vector3f.x (GamepadRotate (OnStartup streaming sensor now (construct ipd))) = 0)
    by (cbn; split; lra).
  revert H0. generalize (OnStartup streaming sensor now (construct ipd)).
  induction Hn as [ | e evs He Hn IH ]; intros a [Hy Hg]; cbn [Run].
  - exact Hy.
  - destruct (Quit a); [ exact Hy | ].
    rewrite bind_fst. apply IH.
    destruct e as [dx dy | vk | vk | | | pad inp]; cbn [step ret fst].
    + cbn [yawNeutral] in He. subst dx.
      destruct (mouse_yaw_step 0 dy a) as (E1 & E2 & E3).
      rewrite E1, E2, E3. split; [ lra | exact Hg ].
    + destruct (OnKey_yaw_fields vk true a) as (E1 & E2).
      rewrite E1, E2, (proj2 (OnKey_tracker_fields vk true a)).
      split; assumption.
    + destruct (OnKey_yaw_fields vk false a) as (E1 & E2).
      rewrite E1, E2, (proj2 (OnKey_tracker_fields vk false a)).
      split; assumption.
    + split; assumption.
    + split; assumption.
    + set (b := match pad with Some _ => _ | None => a end).
      assert (Hb : EyeYaw b = YawInitial + LastSensorYaw b /\
                   Vector3f.x (GamepadRotate b) = 0).
      { subst b. destruct pad as [[[[lx ly] rx] ry] | ]; [ | split; assumption ].
        cbn [yawNeutral] in He. unfold OnGamepad.
        cbn [EyeYaw LastSensorYaw GamepadRotate set_GamepadRotate
             set_GamepadMove Vector3f.x].
        rewrite (GamepadStick_dead rx He). split; [ exact Hy | ring ]. }
      destruct Hb as [By Bg].
      destruct (OnIdle_yaw inp b) as [Y L].
      rewrite Y, L, (proj1 (proj2 (proj2 (OnIdle_frame inp b)))), By, Bg.
      split; ring.
Qed.

(** X23 on a run with two frames of the Oculus sensor and a key press. *)
Lemma yaw_follows_tracker_witness :
  EyeYaw (fst (Run [Idle None (frameAt 1 2 0 (mkPacket 0 0 0 1));
                    KeyDown (chr "W");
                    Idle (Some (0, 0, 100, 0)%Z) (frameAt 2 5 0 (mkPacket 0 0 0 1))]
                   (OnStartup false true 0 (construct 0.064))))
  = YawInitial
    + LastSensorYaw
        (fst (Run [Idle None (frameAt 1 2 0 (mkPacket 0 0 0 1));
                   KeyDown (chr "W");
                   Idle (Some (0, 0, 100, 0)%Z) (frameAt 2 5 0 (mkPacket 0 0 0 1))]
                  (OnStartup false true 0 (construct 0.064)))).
Proof.
  apply yaw_follows_tracker.
  repeat constructor.
Defined.

(** ** Direction of the keyboard movement *)

(** X24.  Translation depends on the yaw only: the frame's displacement
    is the same whatever the pitch and the roll are.  With W alone held
    the eye moves along (-sin yaw, 0, -cos yaw) and with D alone held
    along (cos yaw, 0, -sin yaw), both scaled by [MoveSpeed] x [dt] x
    the Shift boost. *)
Theorem movement_follows_yaw (dt pitch roll : R) (a : OculusRoomTinyApp) :
  displacement dt (set_EyeRoll roll (set_EyePitch pitch a)) = displacement dt a /\
  (pressed (MoveForward a) = true ->
   pressed (MoveRight a) = false -> pressed (MoveLeft a) = false ->
   displacement dt a =
     Vector3f.scale (Vector3f.mk (- sin (EyeYaw a)) 0 (- cos (EyeYaw a)))
       (MoveSpeed * dt * (if ShiftDown a then 3 else 1))) /\
  (pressed (MoveRight a) = true ->
   pressed (MoveForward a) = false -> pressed (MoveBack a) = false ->
   displacement dt a =
     Vector3f.scale (Vector3f.mk (cos (EyeYaw a)) 0 (- sin (EyeYaw a)))
       (MoveSpeed * dt * (if ShiftDown a then 3 else 1))).
Proof.
  split; [ | split ].
  - unfold displacement.
    rewrite (movement_EyePos_ext dt (set_EyeRoll roll (set_EyePitch pitch a)) a)
      by reflexivity.
    reflexivity.
  - intros Hf Hr Hl.
    assert (Hk : anyMoveKey a = true)
      by (unfold anyMoveKey; rewrite Hf; reflexivity).
    rewrite (displacement_keyboard dt a Hk).
    unfold keyboardStep, localMove. rewrite Hf, Hr, Hl.
    rewrite Normalize_axis
      by (unfold Vector3f.LengthSq, ForwardVector; cbn; ring).
    unfold Matrix4f.Transform, Matrix4f.RotationY, ForwardVector, Vector3f.scale.
    cbn. f_equal; ring.
  - intros Hr Hf Hb.
    assert (Hk : anyMoveKey a = true).
    { unfold anyMoveKey. rewrite Hr. rewrite !orb_true_r. reflexivity. }
    rewrite (displacement_keyboard dt a Hk).
    unfold keyboardStep, localMove. rewrite Hf, Hb, Hr.
    rewrite Normalize_axis
      by (unfold Vector3f.LengthSq, Vector3f.add, Vector3f.zero, RightVector;
          cbn; ring).
    unfold Matrix4f.Transform, Matrix4f.RotationY, RightVector,
      Vector3f.add, Vector3f.zero, Vector3f.scale.
    cbn. f_equal; ring.
Qed.

(** X24 with W held after startup. *)
Lemma movement_follows_yaw_witness :
  displacement 0.5 (OnKey (chr "W") true (started false false)) =
    Vector3f.scale
      (Vector3f.mk (- sin (EyeYaw (OnKey (chr "W") true (started false false)))) 0
                   (- cos (EyeYaw (OnKey (chr "W") true (started false false)))))
      (MoveSpeed * 0.5
       * (if ShiftDown (OnKey (chr "W") true (started false false)) then 3 else 1)).
Proof.
  apply (proj1 (proj2 (movement_follows_yaw 0.5 0 0
                         (OnKey (chr "W") true (started false false)))));
    reflexivity.
Defined.

(** ** A frame whose sample call fails *)



